(** * AI-Trader: the system status checker ([check_status.py])

    A shallow embedding of [SystemStatusChecker] and [main].  The checker
    object is a record of its three message lists together with the console
    it prints to; every method is a function in a small state-and-exception
    monad over that record, so that a Python [raise] keeps the appends made
    before it and a [try]/[except] is an explicit combinator.  Everything the
    script reads from its surroundings (interpreter version, the
    interpreter's [int], importable modules, files, environment variables,
    sockets) is a field of [world], which stays the same during a run.

    Not modelled: the two module-level statements ([load_dotenv()] and the
    re-wrapping of the console on Windows), a [print] that fails, and the
    exceptions outside [Exception] ([KeyboardInterrupt], [SystemExit]),
    which no clause of the script is there to handle. *)

From Stdlib Require Import ZArith Ascii Floats.SpecFloat.
From stdpp Require Import base list strings gmap pretty.

Open Scope string_scope.
Open Scope list_scope.
Open Scope nat_scope.

(** ** Python values and exceptions *)

(** The exception classes the script can meet.  All of them derive from
    [Exception]; [JSONDecodeError] is the one [json.load] raises on text that
    is not JSON, [ImportError] stands for its subclasses too. *)
Inductive exn_class :=
| ImportError | JSONDecodeError | ValueError | TypeError | AttributeError
| KeyError | OSError | OverflowError | RuntimeError.

(** An exception instance: its class and [str(e)], the text an f-string
    prints for it. *)
Record exn := Exn { exn_cls : exn_class; exn_str : string }.

Definition is_ImportError (e : exn) : bool :=
  match exn_cls e with ImportError => true | _ => false end.

Definition is_JSONDecodeError (e : exn) : bool :=
  match exn_cls e with JSONDecodeError => true | _ => false end.

(** What a check method hands back to [run_all_checks]: [True], [False],
    or [None] for a method that ends without a [return]. *)
Inductive pyval := PyNone | PyBool (b : bool).

(** ** The checker object *)

Record SystemStatusChecker := Checker {
  issues : list string;
  warnings : list string;
  success : list string;
  stdout : list string   (* the lines printed so far *)
}.

(** [__init__] on a console that already shows [out]. *)
Definition init (out : list string) : SystemStatusChecker :=
  Checker [] [] [] out.

(** ** The monad of methods *)

Inductive outcome (A : Type) :=
| Return (a : A)
| Raise (e : exn).
Arguments Return {A} a.
Arguments Raise {A} e.

Definition M (A : Type) : Type :=
  SystemStatusChecker → outcome A * SystemStatusChecker.

Definition ret {A} (a : A) : M A := λ st, (Return a, st).

Definition raise {A} (e : exn) : M A := λ st, (Raise e, st).

Definition bind {A B} (m : M A) (k : A → M B) : M B :=
  λ st, match m st with
        | (Return a, st') => k a st'
        | (Raise e, st') => (Raise e, st')
        end.

(** [try: body  except Exception as e: handler e].  State changes made by
    [body] before it raised are kept. *)
Definition try_except {A} (body : M A) (handler : exn → M A) : M A :=
  λ st, match body st with
        | (Return a, st') => (Return a, st')
        | (Raise e, st') => handler e st'
        end.

(** A library call that answers a value or raises. *)
Definition lift {A} (r : exn + A) : M A :=
  match r with inl e => raise e | inr a => ret a end.

Declare Scope py_scope.
Delimit Scope py_scope with py.
Notation "x <- m ;; k" := (bind m (λ x, k))
  (at level 100, m at next level, right associativity) : py_scope.
Notation "m ;;; k" := (bind m (λ _, k))
  (at level 100, right associativity) : py_scope.
Open Scope py_scope.

(** A [for] loop that carries local variables [s] from one round to the
    next.  A round that raises ends the loop, as in Python. *)
Fixpoint for_fold {A S} (body : S → A → M S) (s : S) (l : list A) : M S :=
  match l with
  | [] => ret s
  | a :: rest => s' <- body s a ;; for_fold body s' rest
  end.

Definition for_each {A} (body : A → M unit) (l : list A) : M unit :=
  for_fold (λ _ a, body a) () l.

(** Reading [self]. *)
Definition get_self : M SystemStatusChecker := λ st, (Return st, st).

(** The four updates a method can make to [self] and the console. *)
Definition with_line (line : string) (st : SystemStatusChecker) :=
  Checker (issues st) (warnings st) (success st) (stdout st ++ [line]).

Definition with_issue (msg : string) (st : SystemStatusChecker) :=
  Checker (issues st ++ [msg]) (warnings st) (success st) (stdout st).

Definition with_warning (msg : string) (st : SystemStatusChecker) :=
  Checker (issues st) (warnings st ++ [msg]) (success st) (stdout st).

Definition with_success (msg : string) (st : SystemStatusChecker) :=
  Checker (issues st) (warnings st) (success st ++ [msg]) (stdout st).

Definition print (line : string) : M unit :=
  λ st, (Return (), with_line line st).

(** [self.issues.append(msg)] and its two siblings. *)
Definition issues_append (msg : string) : M unit :=
  λ st, (Return (), with_issue msg st).

Definition warnings_append (msg : string) : M unit :=
  λ st, (Return (), with_warning msg st).

Definition success_append (msg : string) : M unit :=
  λ st, (Return (), with_success msg st).

(** ** The surroundings of a run *)

(** Parsed JSON, as [json.load] builds it.  An object is the list of the
    items of the Python dict, in insertion order; should a key occur twice,
    the first occurrence is the item. *)
#[local] Unset Elimination Schemes.
Inductive json :=
| JNull
| JBool (b : bool)
| JInt (z : Z)
| JFloat (f : spec_float)
| JString (s : string)
| JArray (xs : list json)
| JObject (kvs : list (string * json)).
#[local] Set Elimination Schemes.

Record version_info := Version { major : Z; minor : Z; micro : Z }.

Record world := World {
  sys_version_info : version_info;
  (* [__import__ name]: [None] when the import succeeds, otherwise the
     exception it raises *)
  import_module : string → option exn;
  (* [Path(p).exists()] *)
  path_exists : string → bool;
  (* [open(config_path)] followed by [json.load] *)
  load_config : exn + json;
  (* [os.getenv name] *)
  os_getenv : string → option string;
  (* [int(s)], the built-in of the running interpreter: the integer it
     answers or the exception it raises *)
  builtin_int : string → exn + Z;
  (* the names of the entries of a directory, for [Path.glob] *)
  scandir : string → list string;
  (* [socket.socket(...)] of the attempt on a port: [None] when the socket
     is created *)
  socket_new : Z → option exn;
  (* [sock.connect_ex(('localhost', port))] for a port in range *)
  connect_ex : Z → exn + Z;
  (* [sock.close()] *)
  socket_close : Z → option exn
}.

(** ** Python operations on parsed JSON *)

Definition py_type_name (v : json) : string :=
  match v with
  | JNull => "NoneType"
  | JBool _ => "bool"
  | JInt _ => "int"
  | JFloat _ => "float"
  | JString _ => "str"
  | JArray _ => "list"
  | JObject _ => "dict"
  end.

(** [d.get(key)] on the pairs of a dict. *)
Fixpoint dict_lookup {V} (key : string) (kvs : list (string * V)) : option V :=
  match kvs with
  | [] => None
  | (k, v) :: rest => if String.eqb k key then Some v else dict_lookup key rest
  end.

Definition is_substring (needle s : string) : bool :=
  match String.index 0 needle s with Some _ => true | None => false end.

Definition is_str (key : string) (v : json) : bool :=
  match v with JString s => String.eqb s key | _ => false end.

(** [key in v] for a string [key]: a key of a dict, an element of a list, a
    substring of a string; a [TypeError] on anything else. *)
Definition py_in (key : string) (v : json) : exn + bool :=
  match v with
  | JObject kvs => inr (bool_decide (is_Some (dict_lookup key kvs)))
  | JArray xs => inr (existsb (is_str key) xs)
  | JString s => inr (is_substring key s)
  | _ => inl (Exn TypeError ("argument of type '" +:+ py_type_name v
                             +:+ "' is not iterable"))
  end.

(** [v.get(key, default)]: only a dict has the method. *)
Definition py_get (v : json) (key : string) (dflt : json) : exn + json :=
  match v with
  | JObject kvs => inr (default dflt (dict_lookup key kvs))
  | _ => inl (Exn AttributeError ("'" +:+ py_type_name v
                                  +:+ "' object has no attribute 'get'"))
  end.

(** [for m in v]: the elements of a list, the keys of a dict, the characters
    of a string (one per byte here); a [TypeError] on anything else. *)
Definition py_iter (v : json) : exn + list json :=
  match v with
  | JArray xs => inr xs
  | JObject kvs => inr (map JString (remove_dups (map fst kvs)))
  | JString s =>
      inr (map (λ c, JString (String c EmptyString)) (String.list_ascii_of_string s))
  | _ => inl (Exn TypeError ("'" +:+ py_type_name v
                             +:+ "' object is not iterable"))
  end.

(** Truth value of a Python object in an [if]. *)
Definition truthy (v : json) : bool :=
  match v with
  | JNull => false
  | JBool b => b
  | JInt z => negb (z =? 0)%Z
  | JFloat (S754_zero _) => false
  | JFloat _ => true
  | JString s => negb (String.eqb s "")
  | JArray xs => match xs with [] => false | _ => true end
  | JObject kvs => match kvs with [] => false | _ => true end
  end.

(** ** Python operations on strings *)

(** [s * n] *)
Fixpoint str_mul (s : string) (n : nat) : string :=
  match n with O => "" | S n' => s +:+ str_mul s n' end.

Definition ends_with (suffix s : string) : bool :=
  let n := String.length s in
  let k := String.length suffix in
  bool_decide (k ≤ n) && String.eqb (String.substring (n - k) k s) suffix.

(** The one glob pattern of the script, [daily_prices_*.json], on a
    case-sensitive file system: the star stands for any run of characters,
    possibly none. *)
Definition matches_daily_prices (name : string) : bool :=
  String.prefix "daily_prices_" name && ends_with ".json" name
  && bool_decide (18 ≤ String.length name).

Section Checks.

Variable w : world.

(** ** check_python_version *)

Definition check_python_version : M pyval :=
  print "🐍 Перевірка версії Python..." ;;;
  let version := sys_version_info w in
  if (3 <=? major version)%Z && (10 <=? minor version)%Z then
    success_append ("✅ Python " +:+ pretty (major version) +:+ "."
                    +:+ pretty (minor version) +:+ "."
                    +:+ pretty (micro version) +:+ " - OK") ;;;
    ret (PyBool true)
  else
    issues_append ("❌ Python " +:+ pretty (major version) +:+ "."
                   +:+ pretty (minor version) +:+ "."
                   +:+ pretty (micro version)
                   +:+ " - Потрібна версія 3.10+") ;;;
    ret (PyBool false).


(** ** check_dependencies *)

Definition required_packages : list (string * string) :=
  [ ("langchain", "langchain");
    ("langchain_openai", "langchain-openai");
    ("langchain_mcp_adapters", "langchain-mcp-adapters");
    ("fastmcp", "fastmcp");
    ("dotenv", "python-dotenv") ].

(** [__import__(import_name)] *)
Definition py_import (import_name : string) : M unit :=
  match import_module w import_name with
  | None => ret ()
  | Some e => raise e
  end.

Definition check_dependencies : M pyval :=
  print "📦 Перевірка залежностей..." ;;;
  missing <- for_fold (λ (missing : list string) '(import_name, package_name),
      try_except
        (py_import import_name ;;;
         success_append ("✅ " +:+ package_name +:+ " - встановлено") ;;;
         ret missing)
        (λ e, if is_ImportError e then
                issues_append ("❌ " +:+ package_name +:+ " - не встановлено") ;;;
                ret (missing ++ [package_name])
              else raise e))
    [] required_packages ;;
  ret (PyBool (length missing =? 0)).

(** ** check_config_file *)

Definition config_path : string := "configs/default_config.json".

Definition required_fields : list string :=
  ["agent_type"; "date_range"; "models"; "agent_config"].

(** The loop over [required_fields]; [Some v] when it left the method
    with [return v]. *)
Fixpoint check_required_fields (config : json) (fields : list string)
  : M (option pyval) :=
  match fields with
  | [] => ret None
  | field :: rest =>
      present <- lift (py_in field config) ;;
      if negb present then
        issues_append ("❌ Відсутнє обов'язкове поле в конфігурації: "
                       +:+ field) ;;;
        ret (Some (PyBool false))
      else check_required_fields config rest
  end.

(** [[m for m in models if m.get('enabled', False)]] *)
Fixpoint enabled_only (models : list json) : exn + list json :=
  match models with
  | [] => inr []
  | m :: rest =>
      match py_get m "enabled" (JBool false) with
      | inl e => inl e
      | inr flag =>
          match enabled_only rest with
          | inl e => inl e
          | inr kept => inr (if truthy flag then m :: kept else kept)
          end
      end
  end.

Definition check_config_file : M pyval :=
  print "⚙️  Перевірка конфігурації..." ;;;
  if negb (path_exists w config_path) then
    issues_append ("❌ Файл конфігурації не знайдено: " +:+ config_path) ;;;
    ret (PyBool false)
  else
    try_except
      (config <- lift (load_config w) ;;
       returned <- check_required_fields config required_fields ;;
       match returned with
       | Some v => ret v
       | None =>
           models <- lift (py_get config "models" (JArray [])) ;;
           entries <- lift (py_iter models) ;;
           enabled_models <- lift (enabled_only entries) ;;
           (if length enabled_models =? 0 then
              warnings_append "⚠️  Немає активних моделей у конфігурації"
            else
              success_append ("✅ Знайдено " +:+ pretty (length enabled_models)
                              +:+ " активних моделей")) ;;;
           success_append ("✅ Файл конфігурації валідний: " +:+ config_path) ;;;
           ret (PyBool true)
       end)
      (λ e, if is_JSONDecodeError e then
              issues_append ("❌ Помилка формату JSON у конфігурації: "
                             +:+ exn_str e) ;;;
              ret (PyBool false)
            else
              issues_append ("❌ Помилка читання конфігурації: "
                             +:+ exn_str e) ;;;
              ret (PyBool false)).

(** ** check_env_file *)

Definition critical_vars : list (string * string) :=
  [ ("OPENAI_API_KEY", "API ключ OpenAI");
    ("OPENAI_API_BASE", "Base URL OpenAI") ].

Definition optional_vars : list (string * string) :=
  [ ("ALPHAADVANTAGE_API_KEY", "API ключ Alpha Vantage");
    ("JINA_API_KEY", "API ключ Jina AI") ].

(** [not os.getenv(var)]: unset, or set to the empty string. *)
Definition env_missing (var : string) : bool :=
  match os_getenv w var with
  | None => true
  | Some v => String.eqb v ""
  end.

(** The method has no [return]: it answers [None]. *)
Definition check_env_file : M pyval :=
  print "🔐 Перевірка змінних середовища..." ;;;
  (if negb (path_exists w ".env") then
     warnings_append
       "⚠️  Файл .env не знайдено (може бути використано системні змінні)"
   else
     success_append "✅ Файл .env знайдено") ;;;
  for_each (λ '(var, desc),
      if env_missing var then
        warnings_append ("⚠️  " +:+ desc +:+ " (" +:+ var
                         +:+ ") не встановлено")
      else
        success_append ("✅ " +:+ desc +:+ " встановлено"))
    critical_vars ;;;
  for_each (λ '(var, desc),
      if env_missing var then
        warnings_append ("⚠️  " +:+ desc +:+ " (" +:+ var
                         +:+ ") не встановлено (опціонально)")
      else
        success_append ("✅ " +:+ desc +:+ " встановлено"))
    optional_vars ;;;
  ret PyNone.

(** ** check_data_files *)

Definition check_data_files : M pyval :=
  print "📊 Перевірка даних..." ;;;
  if negb (path_exists w "data") then
    issues_append "❌ Директорія data не знайдена" ;;;
    ret (PyBool false)
  else
    let price_files := List.filter matches_daily_prices (scandir w "data") in
    (if length price_files =? 0 then
       warnings_append
         "⚠️  Файли з даними цін не знайдено (може знадобитися запуск get_daily_price.py)"
     else
       success_append ("✅ Знайдено " +:+ pretty (length price_files)
                       +:+ " файлів з даними цін")) ;;;
    (if path_exists w "data/agent_data" then
       success_append "✅ Директорія agent_data існує"
     else
       warnings_append
         "⚠️  Директорія agent_data не існує (буде створена автоматично)") ;;;
    ret (PyBool true).


(** ** check_port and check_mcp_services *)

(** [os.getenv(name, default)] *)
Definition getenv_default (name dflt : string) : string :=
  default dflt (os_getenv w name).

(** [sock.connect_ex(('localhost', port))]: a port outside 0..65535 is an
    [OverflowError] before anything is sent. *)
Definition sock_connect_ex (port : Z) : exn + Z :=
  if (0 <=? port)%Z && (port <=? 65535)%Z then connect_ex w port
  else inl (Exn OverflowError "connect_ex(): port must be 0-65535.").

Definition lift_unit (r : option exn) : M unit :=
  match r with None => ret () | Some e => raise e end.

(** The bare [except:] catches whatever the body raises. *)
Definition check_port (port : Z) : M bool :=
  try_except
    (lift_unit (socket_new w port) ;;;
     (* sock.settimeout(1) *)
     result <- lift (sock_connect_ex port) ;;
     lift_unit (socket_close w port) ;;;
     ret (result =? 0)%Z)
    (λ _, ret false).

Definition service_names : list (string * string) :=
  [ ("math", "Math Service");
    ("search", "Search Service");
    ("trade", "Trade Service");
    ("price", "Price Service") ].

(** [d[key]] *)
Definition dict_getitem (d : list (string * string)) (key : string)
  : exn + string :=
  match dict_lookup key d with
  | Some v => inr v
  | None => inl (Exn KeyError ("'" +:+ key +:+ "'"))
  end.

(** The [ports] dict literal: its four values are computed in order, and
    the first [int] that raises ends the method. *)
Definition resolve_ports : exn + list (string * Z) :=
  match builtin_int w (getenv_default "MATH_HTTP_PORT" "8000") with
  | inl e => inl e
  | inr math =>
  match builtin_int w (getenv_default "SEARCH_HTTP_PORT" "8001") with
  | inl e => inl e
  | inr search =>
  match builtin_int w (getenv_default "TRADE_HTTP_PORT" "8002") with
  | inl e => inl e
  | inr trade =>
  match builtin_int w (getenv_default "GETPRICE_HTTP_PORT" "8003") with
  | inl e => inl e
  | inr price =>
      inr [("math", math); ("search", search); ("trade", trade);
           ("price", price)]
  end end end end.

(** One round of the loop over [ports.items()]. *)
Definition report_service (all_running : bool) (item : string * Z) : M bool :=
  let '(service_id, port) := item in
  up <- check_port port ;;
  name <- lift (dict_getitem service_names service_id) ;;
  if up then
    success_append ("✅ " +:+ name +:+ " працює на порту " +:+ pretty port) ;;;
    ret all_running
  else
    warnings_append ("⚠️  " +:+ name +:+ " не працює на порту "
                     +:+ pretty port) ;;;
    ret false.

Definition check_mcp_services : M pyval :=
  print "🔧 Перевірка MCP сервісів..." ;;;
  ports <- lift resolve_ports ;;
  all_running <- for_fold report_service true ports ;;
  ret (PyBool all_running).

(** ** check_agent_tools and check_main_files *)

Definition required_tools : list string :=
  [ "agent_tools/tool_math.py";
    "agent_tools/tool_jina_search.py";
    "agent_tools/tool_trade.py";
    "agent_tools/tool_get_price_local.py";
    "agent_tools/start_mcp_services.py" ].

Definition required_files : list string :=
  [ "main.py"; "requirements.txt"; "agent/base_agent/base_agent.py" ].

(** The loop the two methods share. *)
Definition check_paths (paths : list string) : M bool :=
  for_fold (λ (all_exist : bool) path,
      if path_exists w path then
        success_append ("✅ " +:+ path +:+ " - знайдено") ;;;
        ret all_exist
      else
        issues_append ("❌ " +:+ path +:+ " - не знайдено") ;;;
        ret false)
    true paths.

Definition check_agent_tools : M pyval :=
  print "🛠️  Перевірка інструментів агента..." ;;;
  all_exist <- check_paths required_tools ;;
  ret (PyBool all_exist).

Definition check_main_files : M pyval :=
  print "📄 Перевірка основних файлів..." ;;;
  all_exist <- check_paths required_files ;;
  ret (PyBool all_exist).

(** ** run_all_checks *)

Definition checks : list (string * M pyval) :=
  [ ("Версія Python", check_python_version);
    ("Залежності", check_dependencies);
    ("Конфігурація", check_config_file);
    ("Змінні середовища", check_env_file);
    ("Дані", check_data_files);
    ("Інструменти агента", check_agent_tools);
    ("Основні файли", check_main_files);
    ("MCP сервіси", check_mcp_services) ].

End Checks.

(** The text of the issue the runner files for a check that raised. *)
Definition fault_issue (name : string) (e : exn) : string :=
  "❌ Помилка під час перевірки " +:+ name +:+ ": " +:+ exn_str e.

(** The loop of [run_all_checks] over any list of named checks. *)
Definition run_check (results : gmap string pyval)
    (check : string * M pyval) : M (gmap string pyval) :=
  let '(name, check_func) := check in
  try_except
    (r <- check_func ;;
     print "" ;;;
     ret (<[name := r]> results))
    (λ e,
     issues_append (fault_issue name e) ;;;
     print "" ;;;
     ret (<[name := PyBool false]> results)).

Definition run_checks (checks : list (string * M pyval))
  : M (gmap string pyval) :=
  for_fold run_check ∅ checks.

Definition run_all_checks (w : world) : M (gmap string pyval) :=
  print (str_mul "=" 60) ;;;
  print "🔍 ПЕРЕВІРКА СТАТУСУ СИСТЕМИ AI-TRADER" ;;;
  print (str_mul "=" 60) ;;;
  print "" ;;;
  run_checks (checks w).

(** ** print_summary *)

Definition print_section (title : string) (items : list string) : M unit :=
  match items with
  | [] => ret ()
  | _ =>
      print title ;;;
      for_each (λ item, print ("   " +:+ item)) items ;;;
      print ""
  end.

Definition print_summary : M bool :=
  print (str_mul "=" 60) ;;;
  print "📊 ПІДСУМОК ПЕРЕВІРКИ" ;;;
  print (str_mul "=" 60) ;;;
  print "" ;;;
  self <- get_self ;;
  print_section "✅ Успішні перевірки:" (success self) ;;;
  print_section "⚠️  Попередження:" (warnings self) ;;;
  print_section "❌ Проблеми:" (issues self) ;;;
  let total_issues := length (issues self) in
  let total_warnings := length (warnings self) in
  if (total_issues =? 0) && (total_warnings =? 0) then
    print "🎉 Система готова до роботи!" ;;;
    ret true
  else if total_issues =? 0 then
    print ("✅ Система готова, але є " +:+ pretty total_warnings
           +:+ " попереджень") ;;;
    ret true
  else
    print ("⚠️  Знайдено " +:+ pretty total_issues +:+ " проблем та "
           +:+ pretty total_warnings +:+ " попереджень") ;;;
    print "   Будь ласка, виправте проблеми перед запуском системи" ;;;
    ret false.

(** ** main *)

(** The argument of [sys.exit]. *)
Definition exit_status (is_ready : bool) : Z :=
  if is_ready then 0%Z else 1%Z.

(** A run of the script on a console showing [out]: the exit status of the
    process and the checker as the run leaves it.  An exception that reached
    the top level would end the process with status 1. *)
Definition main (w : world) (out : list string) : Z * SystemStatusChecker :=
  let checker := init out in
  match (run_all_checks w ;;; print_summary) checker with
  | (Return is_ready, st) => (exit_status is_ready, st)
  | (Raise _, st) => (1%Z, st)
  end.

(** ** Sample surroundings *)

Definition digit_of (c : ascii) : option Z :=
  let n := nat_of_ascii c in
  if bool_decide (48 ≤ n ≤ 57) then Some (Z.of_nat n - 48)%Z else None.

Fixpoint digits_value (acc : Z) (cs : list ascii) : option Z :=
  match cs with
  | [] => Some acc
  | c :: rest =>
      match digit_of c with
      | Some d => digits_value (10 * acc + d)%Z rest
      | None => None
      end
  end.

(** The [int] of the sample surroundings.  On a run of one to 4300 ASCII
    digits it answers the number they spell, as the built-in does.  It
    refuses every other string, which is not what the built-in does for
    signs, blanks, underscores and the digits of other scripts; the samples
    only ever hand it the four default port literals. *)
Definition read_digits (s : string) : exn + Z :=
  let cs := String.list_ascii_of_string s in
  match cs with
  | [] => inl (Exn ValueError "invalid literal for int() with base 10: ''")
  | _ :: _ =>
      match digits_value 0 cs with
      | Some z =>
          if bool_decide (length cs ≤ 4300) then inr z
          else inl (Exn ValueError
                      "Exceeds the limit (4300 digits) for integer string conversion")
      | None =>
          inl (Exn ValueError "invalid literal for int() with base 10")
      end
  end.

(** A bare machine: Python 3.12.1, nothing installed, no files, no
    variables set, nothing listening. *)
Definition bare_world : world := {|
  sys_version_info := Version 3 12 1;
  import_module := λ name,
    Some (Exn ImportError ("No module named '" +:+ name +:+ "'"));
  path_exists := λ _, false;
  load_config := inl (Exn OSError "[Errno 2] No such file or directory");
  os_getenv := λ _, None;
  builtin_int := read_digits;
  scandir := λ _, [];
  socket_new := λ _, None;
  connect_ex := λ _, inr 111%Z;
  socket_close := λ _, None
|}.

(** A complete installation whose configuration document is [config]:
    every file is there, the variables are unset, every service answers. *)
Definition installed_world (config : json) : world := {|
  sys_version_info := Version 3 10 0;
  import_module := λ _, None;
  path_exists := λ _, true;
  load_config := inr config;
  os_getenv := λ _, None;
  builtin_int := read_digits;
  scandir := λ dir,
    if String.eqb dir "data" then ["daily_prices_AAPL.json"; "README.md"]
    else [];
  socket_new := λ _, None;
  connect_ex := λ _, inr 0%Z;
  socket_close := λ _, None
|}.

Definition sample_fields (models : json) : list (string * json) :=
  [ ("agent_type", JString "BaseAgent");
    ("date_range", JObject []);
    ("models", models);
    ("agent_config", JObject []) ].

Definition sample_config (models : json) : json :=
  JObject (sample_fields models).


(** * The vocabulary of the properties *)

(** [preserves R m]: whatever [m] does, returning or raising, the state it
    leaves is [R]-related to the one it started from. *)
Definition preserves (R : relation SystemStatusChecker) {A} (m : M A) : Prop :=
  ∀ st, R st (m st).2.

(** What the runner records for a check: the value it returned, or [False]
    when it raised. *)
Definition recorded (o : outcome pyval) : pyval :=
  match o with Return v => v | Raise _ => PyBool false end.

Definition results_from (results : gmap string pyval)
    (log : list (string * outcome pyval)) : gmap string pyval :=
  foldl (λ r '(name, o), <[name := recorded o]> r) results log.

(** The run the specification describes, written as a relation: the checks
    are taken one by one in the order of the list; each is called once, on
    the state its predecessor left, and its outcome is logged; a check that
    raised costs one issue naming it, after which the run goes on. *)
Inductive isolated_run :
  list (string * M pyval) → SystemStatusChecker →
  list (string * outcome pyval) → SystemStatusChecker → Prop :=
| run_done st :
    isolated_run [] st [] st
| run_returned name check_func rest st v st1 log st2 :
    check_func st = (Return v, st1) →
    isolated_run rest (with_line "" st1) log st2 →
    isolated_run ((name, check_func) :: rest) st ((name, Return v) :: log) st2
| run_faulted name check_func rest st e st1 log st2 :
    check_func st = (Raise e, st1) →
    isolated_run rest
      (with_line "" (with_issue (fault_issue name e) st1)) log st2 →
    isolated_run ((name, check_func) :: rest) st ((name, Raise e) :: log) st2.


(** The state [run_all_checks] hands to its first check. *)
Definition with_banner (st : SystemStatusChecker) : SystemStatusChecker :=
  with_line "" (with_line (str_mul "=" 60)
    (with_line "🔍 ПЕРЕВІРКА СТАТУСУ СИСТЕМИ AI-TRADER"
      (with_line (str_mul "=" 60) st))).

(** The surroundings [w] under another interpreter. *)
Definition with_version (w : world) (v : version_info) : world :=
  World v (import_module w) (path_exists w) (load_config w) (os_getenv w)
        (builtin_int w) (scandir w) (socket_new w) (connect_ex w) (socket_close w).

Definition version_header : string := "🐍 Перевірка версії Python...".

(** [st'] holds every entry of [st], unchanged and in the same order, with
    possibly more after them. *)
Definition extends (st st' : SystemStatusChecker) : Prop :=
  issues st `prefix_of` issues st'
  ∧ warnings st `prefix_of` warnings st'
  ∧ success st `prefix_of` success st'.

Abbreviation appends_only := (preserves extends).

Definition env_header : string := "🔐 Перевірка змінних середовища...".

(** The attempt on [port] went through without an exception and
    [connect_ex] answered 0. *)
Definition reachable (w : world) (port : Z) : bool :=
  match socket_new w port, sock_connect_ex w port, socket_close w port with
  | None, inr result, None => (result =? 0)%Z
  | _, _, _ => false
  end.

Definition mcp_header : string := "🔧 Перевірка MCP сервісів...".


Definition data_header : string := "📊 Перевірка даних...".

Definition price_files (w : world) : list string :=
  List.filter matches_daily_prices (scandir w "data").

Definition config_header : string := "⚙️  Перевірка конфігурації...".

Definition missing_field_issue (field : string) : string :=
  "❌ Відсутнє обов'язкове поле в конфігурації: " +:+ field.

(** [field] is a key of the object. *)
Definition has_field (kvs : list (string * json)) (field : string) : Prop :=
  is_Some (dict_lookup field kvs).

#[local] Instance has_field_dec kvs field : Decision (has_field kvs field) :=
  decide (is_Some (dict_lookup field kvs)).

Definition no_enabled_models_warning : string :=
  "⚠️  Немає активних моделей у конфігурації".

Definition config_valid_success : string :=
  "✅ Файл конфігурації валідний: " +:+ config_path.

(** An entry of [models] with the enabled flag set true, read literally:
    an object whose [enabled] is the JSON value [true]. *)
Definition enabled_true (m : json) : bool :=
  match m with
  | JObject fields =>
      match dict_lookup "enabled" fields with
      | Some (JBool true) => true
      | _ => false
      end
  | _ => false
  end.

(** What the comprehension tests on an entry that is an object: the truth
    value of [m.get('enabled', False)]. *)
Definition counts_as_enabled (fields : list (string * json)) : bool :=
  truthy (default (JBool false) (dict_lookup "enabled" fields)).

(** An entry the comprehension passes over: an object whose [enabled]
    value, [False] when absent, is not true in Python's sense. *)
Definition disabled_model (m : json) : Prop :=
  ∃ fields, m = JObject fields ∧ counts_as_enabled fields = false.

(** ** Vocabulary for the checks over lists *)

(** One round of the loop of [check_dependencies]. *)
Definition dependency_round (w : world) (missing : list string)
    (item : string * string) : M (list string) :=
  let '(import_name, package_name) := item in
  try_except
    (py_import w import_name ;;;
     success_append ("✅ " +:+ package_name +:+ " - встановлено") ;;;
     ret missing)
    (λ e, if is_ImportError e then
            issues_append ("❌ " +:+ package_name +:+ " - не встановлено") ;;;
            ret (missing ++ [package_name])
          else raise e).

Definition installed_entry (item : string * string) : string :=
  "✅ " +:+ item.2 +:+ " - встановлено".

Definition not_installed_entry (item : string * string) : string :=
  "❌ " +:+ item.2 +:+ " - не встановлено".

(** The import of the package raises something. *)
Definition import_fails (w : world) (item : string * string) : bool :=
  match import_module w item.1 with None => false | Some _ => true end.

(** Whatever the import of the package raises is an [ImportError]. *)
Definition fails_with_ImportError (w : world) (item : string * string) : Prop :=
  ∀ e, import_module w item.1 = Some e → is_ImportError e = true.

Definition dependencies_header : string := "📦 Перевірка залежностей...".





(** ** Vocabulary for the rest of the code *)

Definition half_installed_world : world :=
  World (Version 3 11 4)
        (λ name, if String.eqb name "fastmcp"
                 then Some (Exn ImportError "No module named 'fastmcp'")
                 else None)
        (λ _, true) (inr (sample_config (JArray []))) (λ _, None) read_digits
        (λ _, []) (λ _, None) (λ _, inr 0%Z) (λ _, None).

Definition broken_import_world : world :=
  World (Version 3 11 4)
        (λ name,
           if String.eqb name "langchain_openai"
           then Some (Exn ImportError "No module named 'langchain_openai'")
           else if String.eqb name "fastmcp"
           then Some (Exn RuntimeError "fastmcp needs a newer pydantic")
           else None)
        (λ _, true) (inr (sample_config (JArray []))) (λ _, None) read_digits
        (λ _, []) (λ _, None) (λ _, inr 0%Z) (λ _, None).

(** What the [try] block does with the parsed document. *)
Definition examine_config (config : json) : M pyval :=
  returned <- check_required_fields config required_fields ;;
  match returned with
  | Some v => ret v
  | None =>
      models <- lift (py_get config "models" (JArray [])) ;;
      entries <- lift (py_iter models) ;;
      enabled_models <- lift (enabled_only entries) ;;
      (if length enabled_models =? 0 then
         warnings_append "⚠️  Немає активних моделей у конфігурації"
       else
         success_append ("✅ Знайдено " +:+ pretty (length enabled_models)
                         +:+ " активних моделей")) ;;;
      success_append ("✅ Файл конфігурації валідний: " +:+ config_path) ;;;
      ret (PyBool true)
  end.

(** The two [except] clauses. *)
Definition config_handler (e : exn) : M pyval :=
  if is_JSONDecodeError e then
    issues_append ("❌ Помилка формату JSON у конфігурації: " +:+ exn_str e) ;;;
    ret (PyBool false)
  else
    issues_append ("❌ Помилка читання конфігурації: " +:+ exn_str e) ;;;
    ret (PyBool false).

(** The entry about the number [n] of enabled models. *)
Definition with_model_count (n : nat) (st : SystemStatusChecker) :=
  if n =? 0 then with_warning no_enabled_models_warning st
  else with_success ("✅ Знайдено " +:+ pretty n +:+ " активних моделей") st.

(** The models the comprehension keeps, when it gets through the list. *)
Definition enabled_models_of (doc : json) : option (list json) :=
  match py_get doc "models" (JArray []) with
  | inr models =>
      match py_iter models with
      | inr entries =>
          match enabled_only entries with
          | inr kept => Some kept
          | inl _ => None
          end
      | inl _ => None
      end
  | inl _ => None
  end.

(** The documents the check lets through: every required field is [in]
    the document, and the comprehension over its models raises nothing. *)
Definition config_accepts (doc : json) : bool :=
  forallb (λ field, match py_in field doc with inr true => true | _ => false end)
          required_fields
  && bool_decide (is_Some (enabled_models_of doc)).


(** The exceptions a document of the wrong shape brings about. *)
Definition shape_error (e : exn) : Prop :=
  exn_cls e = TypeError ∨ exn_cls e = AttributeError.

(** The ways [examine_config] can fail on [config] from [st]. *)
Definition examine_fails (config : json) (st : SystemStatusChecker) : Prop :=
  (∃ field, field ∈ required_fields
     ∧ examine_config config st
       = (Return (PyBool false), with_issue (missing_field_issue field) st))
  ∨ (∃ e, shape_error e ∧ examine_config config st = (Raise e, st)).

(** An entry of [models] that is an object. *)
Definition is_object (m : json) : Prop := ∃ fields, m = JObject fields.

(** An object entry whose [enabled] value Python takes for true. *)
Definition enabled_entry (m : json) : bool :=
  match m with
  | JObject fields => counts_as_enabled fields
  | _ => false
  end.

Definition three_models : list json :=
  [ JObject [("name", JString "gpt-4"); ("enabled", JBool true)];
    JObject [("name", JString "claude"); ("enabled", JInt 0)];
    JObject [("name", JString "qwen"); ("enabled", JString "yes")] ].

Definition env_file_entry (w : world) (st : SystemStatusChecker) :=
  if path_exists w ".env" then with_success "✅ Файл .env знайдено" st
  else with_warning
         "⚠️  Файл .env не знайдено (може бути використано системні змінні)" st.

(** The entry for one variable; [note] is what the optional variables add
    to the warning. *)
Definition env_var_entry (w : world) (note : string) (item : string * string)
    (st : SystemStatusChecker) :=
  if env_missing w item.1 then
    with_warning ("⚠️  " +:+ item.2 +:+ " (" +:+ item.1
                  +:+ (") не встановлено" +:+ note)) st
  else with_success ("✅ " +:+ item.2 +:+ " встановлено") st.

(** Surroundings that differ from the bare machine in their variables. *)
Definition env_world (env : string → option string) : world :=
  World (Version 3 12 1) (λ _, None) (λ _, false)
        (inl (Exn OSError "[Errno 2] No such file or directory"))
        env read_digits (λ _, []) (λ _, None) (λ _, inr 111%Z) (λ _, None).

Definition first_env (name : string) : option string :=
  if String.eqb name "OPENAI_API_KEY" then Some "sk-first"
  else if String.eqb name "JINA_API_KEY" then Some ""
  else None.

Definition second_env (name : string) : option string :=
  if String.eqb name "OPENAI_API_KEY" then Some "another-key"
  else if String.eqb name "OPENAI_API_BASE" then Some ""
  else None.

(** The entries and lines a computation adds. *)
Record delta := Delta {
  new_issues : list string;
  new_warnings : list string;
  new_success : list string;
  new_lines : list string
}.

Definition add_delta (d : delta) (st : SystemStatusChecker) :=
  Checker (issues st ++ new_issues d) (warnings st ++ new_warnings d)
          (success st ++ new_success d) (stdout st ++ new_lines d).

Definition delta_app (d1 d2 : delta) : delta :=
  Delta (new_issues d1 ++ new_issues d2) (new_warnings d1 ++ new_warnings d2)
        (new_success d1 ++ new_success d2) (new_lines d1 ++ new_lines d2).

(** [m] never reads the checker: its outcome and what it adds are the
    same from every starting state. *)
Definition blind {A} (m : M A) : Prop :=
  ∃ o d, ∀ st, m st = (o, add_delta d st).

(** The console is as it was. *)
Definition same_console (st st' : SystemStatusChecker) : Prop :=
  stdout st' = stdout st.

Abbreviation silent := (preserves same_console).

(** A method that prints [header] on entry and nothing after. *)
Definition prints_only (header : string) (m : M pyval) : Prop :=
  ∀ st, stdout (m st).2 = stdout st ++ [header].

Definition declared_headers : list string :=
  [ version_header; dependencies_header; config_header; env_header;
    data_header; "🛠️  Перевірка інструментів агента...";
    "📄 Перевірка основних файлів..."; mcp_header ].







(** The lines of one section: nothing for an empty list, otherwise the
    title, the entries indented by three spaces, and an empty line. *)
Definition section_lines (title : string) (items : list string) : list string :=
  match items with
  | [] => []
  | _ :: _ => title :: map (λ item, "   " +:+ item) items ++ [""]
  end.

Definition closing_lines (st : SystemStatusChecker) : list string :=
  match issues st, warnings st with
  | [], [] => ["🎉 Система готова до роботи!"]
  | [], _ :: _ =>
      ["✅ Система готова, але є " +:+ pretty (length (warnings st))
       +:+ " попереджень"]
  | _ :: _, _ =>
      ["⚠️  Знайдено " +:+ pretty (length (issues st)) +:+ " проблем та "
       +:+ pretty (length (warnings st)) +:+ " попереджень";
       "   Будь ласка, виправте проблеми перед запуском системи"]
  end.

Definition summary_lines (st : SystemStatusChecker) : list string :=
  [str_mul "=" 60; "📊 ПІДСУМОК ПЕРЕВІРКИ"; str_mul "=" 60; ""]
  ++ section_lines "✅ Успішні перевірки:" (success st)
  ++ section_lines "⚠️  Попередження:" (warnings st)
  ++ section_lines "❌ Проблеми:" (issues st)
  ++ closing_lines st.

(** A check that files a warning and raises, between two that return. *)
Definition flaky_checks : list (string * M pyval) :=
  [ ("first", success_append "ok" ;;; ret (PyBool true));
    ("second", warnings_append "about to fail" ;;;
               raise (Exn RuntimeError "boom"));
    ("third", ret PyNone) ].



(** * Properties *)

(** ** Stepping through the monad *)

Lemma bind_Return {A B} (m : M A) (k : A → M B) st a st' :
  m st = (Return a, st') → bind m k st = k a st'.
Proof. unfold bind. by intros ->. Qed.

Lemma bind_Raise {A B} (m : M A) (k : A → M B) st e st' :
  m st = (Raise e, st') → bind m k st = (Raise e, st').
Proof. unfold bind. by intros ->. Qed.

Lemma bind_print {B} line (k : unit → M B) st :
  bind (print line) k st = k () (with_line line st).
Proof. reflexivity. Qed.

(** ** Computations that keep a relation between the states *)

Section Preserves.

Context (R : relation SystemStatusChecker) `{!PreOrder R}.

Lemma preserves_ret {A} (a : A) : preserves R (ret a).
Proof. intros st. reflexivity. Qed.

Lemma preserves_raise {A} e : preserves R (@raise A e).
Proof. intros st. reflexivity. Qed.

Lemma preserves_lift {A} (r : exn + A) : preserves R (lift r).
Proof. destruct r; [apply preserves_raise | apply preserves_ret]. Qed.

Lemma preserves_lift_unit r : preserves R (lift_unit r).
Proof. destruct r; [apply preserves_raise | apply preserves_ret]. Qed.

Lemma preserves_get_self : preserves R get_self.
Proof. intros st. reflexivity. Qed.

Lemma preserves_bind {A B} (m : M A) (k : A → M B) :
  preserves R m → (∀ a, preserves R (k a)) → preserves R (bind m k).
Proof.
  intros Hm Hk st. unfold bind. specialize (Hm st).
  destruct (m st) as [[a|e] st1]; simpl in *.
  - etrans; [exact Hm | apply Hk].
  - exact Hm.
Qed.

Lemma preserves_try_except {A} (body : M A) handler :
  preserves R body → (∀ e, preserves R (handler e)) →
  preserves R (try_except body handler).
Proof.
  intros Hm Hh st. unfold try_except. specialize (Hm st).
  destruct (body st) as [[a|e] st1]; simpl in *.
  - exact Hm.
  - etrans; [exact Hm | apply Hh].
Qed.

Lemma preserves_for_fold {A S} (body : S → A → M S) s l :
  (∀ s a, a ∈ l → preserves R (body s a)) → preserves R (for_fold body s l).
Proof.
  revert s. induction l as [|a l IH]; intros s Hb; simpl.
  - apply preserves_ret.
  - apply preserves_bind.
    + apply Hb. left.
    + intros s'. apply IH. intros s'' b Hin. apply Hb. by right.
Qed.

Lemma preserves_for_each {A} (body : A → M unit) l :
  (∀ a, preserves R (body a)) → preserves R (for_each body l).
Proof. intros Hb. apply preserves_for_fold. intros _ a _. apply Hb. Qed.

End Preserves.

(** One step of a [preserves] proof along the shape of the method. *)
Ltac preserves_step :=
  lazymatch goal with
  | |- PreOrder _ => apply _
  | |- preserves _ (bind _ _) => apply preserves_bind
  | |- preserves _ (try_except _ _) => apply preserves_try_except
  | |- preserves _ (for_fold _ _ _) => apply preserves_for_fold
  | |- preserves _ (for_each _ _) => apply preserves_for_each
  | |- preserves _ (ret _) => apply preserves_ret
  | |- preserves _ (raise _) => apply preserves_raise
  | |- preserves _ (lift _) => apply preserves_lift
  | |- preserves _ (lift_unit _) => apply preserves_lift_unit
  | |- preserves _ get_self => apply preserves_get_self
  | |- preserves _ (if ?c then _ else _) => destruct c
  | |- preserves _ (let '(_, _) := ?p in _) => destruct p
  | |- preserves _ (match ?x with _ => _ end) => destruct x
  | |- ∀ _, _ => intros ?
  end.

(** ** The summary and the exit status *)

Lemma for_each_print (f : string → string) items st :
  for_each (λ item, print (f item)) items st
  = (Return (), Checker (issues st) (warnings st) (success st)
                        (stdout st ++ map f items)).
Proof.
  unfold for_each. revert st. induction items as [|x items IH]; intros st.
  - simpl. unfold ret. destruct st; simpl. by rewrite app_nil_r.
  - simpl. rewrite bind_print, IH. simpl. by rewrite <- app_assoc.
Qed.

Lemma print_section_lists title items st :
  ∃ out, print_section title items st
         = (Return (), Checker (issues st) (warnings st) (success st) out).
Proof.
  destruct items as [|x items].
  - exists (stdout st). by destruct st.
  - unfold print_section. rewrite bind_print.
    erewrite bind_Return by apply for_each_print.
    unfold print. simpl. eauto.
Qed.

(** The verdict of [print_summary] is [issues == []], and the method
    leaves the three lists as they were. *)
Lemma print_summary_spec st :
  ∃ out, print_summary st
         = (Return (bool_decide (issues st = [])),
            Checker (issues st) (warnings st) (success st) out).
Proof.
  unfold print_summary. rewrite !bind_print.
  erewrite bind_Return by reflexivity.
  destruct (print_section_lists "✅ Успішні перевірки:"
    (success (with_line "" (with_line (str_mul "=" 60)
      (with_line "📊 ПІДСУМОК ПЕРЕВІРКИ" (with_line (str_mul "=" 60) st)))))
    (with_line "" (with_line (str_mul "=" 60)
      (with_line "📊 ПІДСУМОК ПЕРЕВІРКИ" (with_line (str_mul "=" 60) st)))))
    as [o1 H1].
  erewrite bind_Return by exact H1. clear H1.
  match goal with |- context [bind (print_section ?t ?i) _ ?s] =>
    destruct (print_section_lists t i s) as [o2 H2] end.
  erewrite bind_Return by exact H2. clear H2.
  match goal with |- context [bind (print_section ?t ?i) _ ?s] =>
    destruct (print_section_lists t i s) as [o3 H3] end.
  erewrite bind_Return by exact H3. clear H3.
  cbn [issues warnings success stdout with_line].
  destruct (issues st) as [|i rest], (warnings st) as [|x ws];
    cbn [length Nat.eqb andb]; rewrite ?bind_print; unfold ret;
    cbn [issues warnings success stdout with_line]; eauto.
Qed.

(** ** The runner: every check once, in order, faults isolated *)

Lemma isolated_run_names checks st log st' :
  isolated_run checks st log st' → log.*1 = checks.*1.
Proof. induction 1; csimpl; congruence. Qed.

Lemma run_check_Return results name (check_func : M pyval) st v st1 :
  check_func st = (Return v, st1) →
  run_check results (name, check_func) st
  = (Return (<[name := v]> results), with_line "" st1).
Proof.
  intros H. unfold run_check, try_except.
  erewrite bind_Return by exact H. reflexivity.
Qed.

Lemma run_check_Raise results name (check_func : M pyval) st e st1 :
  check_func st = (Raise e, st1) →
  run_check results (name, check_func) st
  = (Return (<[name := PyBool false]> results),
     with_line "" (with_issue (fault_issue name e) st1)).
Proof.
  intros H. unfold run_check, try_except.
  erewrite bind_Raise by exact H. reflexivity.
Qed.

Lemma for_fold_run_check checks results st :
  ∃ log st',
    for_fold run_check results checks st
      = (Return (results_from results log), st')
    ∧ isolated_run checks st log st'.
Proof.
  revert results st.
  induction checks as [|[name check_func] rest IH]; intros results st.
  - exists [], st. split; [reflexivity | constructor].
  - cbn [for_fold].
    destruct (check_func st) as [[v|e] st1] eqn:Hcall.
    + erewrite bind_Return by (by apply run_check_Return).
      destruct (IH (<[name := v]> results) (with_line "" st1))
        as (log & st' & Hrun & Hspec).
      exists ((name, Return v) :: log), st'. split; [exact Hrun |].
      by eapply run_returned.
    + erewrite bind_Return by (by apply run_check_Raise).
      destruct (IH (<[name := PyBool false]> results)
                   (with_line "" (with_issue (fault_issue name e) st1)))
        as (log & st' & Hrun & Hspec).
      exists ((name, Raise e) :: log), st'. split; [exact Hrun |].
      by eapply run_faulted.
Qed.

Lemma results_from_lookup_ne results log name :
  name ∉ log.*1 → results_from results log !! name = results !! name.
Proof.
  revert results. induction log as [|[n o] log IH]; intros results Hnot.
  - reflexivity.
  - simpl in *. apply not_elem_of_cons in Hnot as [Hne Hnot].
    unfold results_from in *. simpl. rewrite IH by done.
    by rewrite lookup_insert_ne.
Qed.

Lemma results_from_lookup results log name o :
  NoDup log.*1 → (name, o) ∈ log →
  results_from results log !! name = Some (recorded o).
Proof.
  revert results. induction log as [|[n o'] log IH]; intros results Hnd Hin.
  - by apply elem_of_nil in Hin.
  - simpl in Hnd. apply NoDup_cons in Hnd as [Hfresh Hnd].
    apply elem_of_cons in Hin as [Heq | Hin].
    + injection Heq as <- <-.
      change (results_from (<[name := recorded o]> results) log !! name
              = Some (recorded o)).
      rewrite results_from_lookup_ne by done. apply lookup_insert_eq.
    + change (results_from (<[n := recorded o']> results) log !! name
              = Some (recorded o)).
      by apply IH.
Qed.



(** The runner on any list of checks. *)
Lemma run_checks_log (checks : list (string * M pyval)) st :
  ∃ log st',
    run_checks checks st = (Return (results_from ∅ log), st')
    ∧ isolated_run checks st log st'
    ∧ log.*1 = checks.*1
    ∧ (NoDup checks.*1 → ∀ name o, (name, o) ∈ log →
         results_from ∅ log !! name = Some (recorded o)).
Proof.
  destruct (for_fold_run_check checks ∅ st) as (log & st' & Hrun & Hspec).
  exists log, st'. pose proof (isolated_run_names _ _ _ _ Hspec) as Hnames.
  repeat split; try done.
  intros Hnd name o Hin.
  apply results_from_lookup; [by rewrite Hnames | done].
Qed.

Lemma run_all_checks_unfold w st :
  run_all_checks w st = run_checks (checks w) (with_banner st).
Proof. reflexivity. Qed.


(** ** C1: the verdict and the exit status *)

Lemma main_spec w out :
  ∃ results st1 st2,
    run_all_checks w (init out) = (Return results, st1)
    ∧ print_summary st1 = (Return (bool_decide (issues st1 = [])), st2)
    ∧ issues st2 = issues st1
    ∧ main w out = (exit_status (bool_decide (issues st1 = [])), st2).
Proof.
  destruct (run_checks_log (checks w) (with_banner (init out)))
    as (log & st1 & Hrun & _).
  rewrite <- run_all_checks_unfold in Hrun.
  destruct (print_summary_spec st1) as [out' Hsum].
  eexists _, st1, _. split; [exact Hrun |]. split; [exact Hsum |].
  split; [reflexivity |].
  unfold main. erewrite bind_Return by exact Hrun.
  by rewrite Hsum.
Qed.

(** C1. [print_summary] always returns, and its verdict is true exactly
    when [issues] is empty; replacing [warnings] by any other list leaves
    the verdict as it was.  [main] exits with [exit_status] of the verdict
    that [print_summary] gives on the state the runner left, which is 0 for
    a true verdict and 1 for a false one; so a run exits with 0 exactly when
    it ends with no issue and with 1 otherwise. *)
Theorem verdict_is_no_issues :
  (∀ st, ∃ b st', print_summary st = (Return b, st')
                  ∧ (b = true ↔ issues st = []))
  ∧ (∀ st ws,
       (print_summary (Checker (issues st) ws (success st) (stdout st))).1
       = (print_summary st).1)
  ∧ (∀ b, (exit_status b = 0%Z ↔ b = true) ∧ (exit_status b = 1%Z ↔ b = false))
  ∧ (∀ w out, ∃ results st1 is_ready st2,
       run_all_checks w (init out) = (Return results, st1)
       ∧ print_summary st1 = (Return is_ready, st2)
       ∧ main w out = (exit_status is_ready, st2))
  ∧ (∀ w out,
       ((main w out).1 = 0%Z ↔ issues (main w out).2 = [])
       ∧ ((main w out).1 = 1%Z ↔ issues (main w out).2 ≠ [])).
Proof.
  split; [| split; [| split; [| split]]].
  - intros st. destruct (print_summary_spec st) as [out Hsum].
    eexists _, _. split; [exact Hsum |].
    apply bool_decide_eq_true.
  - intros st ws.
    destruct (print_summary_spec st) as [out1 ->].
    destruct (print_summary_spec
                (Checker (issues st) ws (success st) (stdout st)))
      as [out2 ->].
    reflexivity.
  - intros []; simpl; split; split; (done || lia).
  - intros w out.
    destruct (main_spec w out) as (results & st1 & st2 & H1 & H2 & _ & H3).
    eauto 8.
  - intros w out.
    destruct (main_spec w out) as (results & st1 & st2 & _ & _ & Hsame & ->).
    cbn [fst snd]. rewrite Hsame.
    destruct (issues st1); simpl; split; split; (done || lia).
Qed.

(** ** C3: the version check *)

Lemma check_python_version_spec w st :
  ∃ passed entry,
    check_python_version w st
    = (Return (PyBool passed),
       (if passed then with_success entry else with_issue entry)
         (with_line version_header st))
    ∧ (passed = true
       ↔ (3 ≤ major (sys_version_info w) ∧ 10 ≤ minor (sys_version_info w))%Z).
Proof.
  unfold check_python_version. rewrite bind_print.
  destruct (3 <=? major (sys_version_info w))%Z eqn:Hmaj;
    destruct (10 <=? minor (sys_version_info w))%Z eqn:Hmin; cbn [andb];
    [exists true | exists false | exists false | exists false];
    (eexists; split; [reflexivity | lia]).
Qed.

(** C3. The version check always returns; it returns [True], after
    appending one entry to [success], exactly when the major version is at
    least 3 and the minor version at least 10, and otherwise returns [False]
    after appending one entry to [issues].  So 3.9 is an issue, 3.10 and
    3.15 are successes. *)
Theorem check_python_version_passes_iff :
  (∀ w st, ∃ passed entry,
     check_python_version w st
     = (Return (PyBool passed),
        (if passed then with_success entry else with_issue entry)
          (with_line version_header st))
     ∧ (passed = true
        ↔ (3 ≤ major (sys_version_info w)
           ∧ 10 ≤ minor (sys_version_info w))%Z))
  ∧ (∀ w patch st, ∃ entry,
       check_python_version (with_version w (Version 3 9 patch)) st
       = (Return (PyBool false),
          with_issue entry (with_line version_header st)))
  ∧ (∀ w patch st, ∃ entry,
       check_python_version (with_version w (Version 3 10 patch)) st
       = (Return (PyBool true),
          with_success entry (with_line version_header st)))
  ∧ (∀ w patch st, ∃ entry,
       check_python_version (with_version w (Version 3 15 patch)) st
       = (Return (PyBool true),
          with_success entry (with_line version_header st))).
Proof.
  split; [exact check_python_version_spec |].
  repeat split; intros w patch st;
    match goal with |- context [check_python_version ?w' _] =>
      destruct (check_python_version_spec w' st)
        as (passed & entry & Heq & [Hif Honlyif])
    end; cbn in Hif, Honlyif; exists entry; destruct passed;
    first [ exact Heq
          | specialize (Hif eq_refl); lia
          | assert (false = true) by (apply Honlyif; lia); discriminate ].
Qed.

(** ** C9: the three lists only grow *)

#[local] Instance extends_preorder : PreOrder extends.
Proof.
  split.
  - intros st. by repeat split.
  - intros a b c (?&?&?) (?&?&?). repeat split; by etrans.
Qed.

Lemma print_appends_only line : appends_only (print line).
Proof. intros st. by repeat split. Qed.

Lemma issues_append_appends_only msg : appends_only (issues_append msg).
Proof. intros st. repeat split; simpl; try done. by apply prefix_app_r. Qed.

Lemma warnings_append_appends_only msg : appends_only (warnings_append msg).
Proof. intros st. repeat split; simpl; try done. by apply prefix_app_r. Qed.

Lemma success_append_appends_only msg : appends_only (success_append msg).
Proof. intros st. repeat split; simpl; try done. by apply prefix_app_r. Qed.

Create HintDb appends_only.
#[local] Hint Resolve print_appends_only issues_append_appends_only
  warnings_append_appends_only success_append_appends_only : appends_only.

Ltac solve_appends_only :=
  repeat first [ solve [auto with appends_only nocore] | preserves_step ].

Lemma check_python_version_appends_only w :
  appends_only (check_python_version w).
Proof. unfold check_python_version. solve_appends_only. Qed.

Lemma check_dependencies_appends_only w :
  appends_only (check_dependencies w).
Proof. unfold check_dependencies, py_import. solve_appends_only. Qed.

Lemma check_required_fields_appends_only config fields :
  appends_only (check_required_fields config fields).
Proof.
  induction fields as [|field rest IH]; cbn [check_required_fields];
    solve_appends_only.
Qed.
#[local] Hint Resolve check_required_fields_appends_only : appends_only.

Lemma check_config_file_appends_only w : appends_only (check_config_file w).
Proof. unfold check_config_file. solve_appends_only. Qed.

Lemma check_env_file_appends_only w : appends_only (check_env_file w).
Proof. unfold check_env_file. solve_appends_only. Qed.

Lemma check_data_files_appends_only w : appends_only (check_data_files w).
Proof. unfold check_data_files. solve_appends_only. Qed.

Lemma check_port_appends_only w port : appends_only (check_port w port).
Proof. unfold check_port. solve_appends_only. Qed.
#[local] Hint Resolve check_port_appends_only : appends_only.

Lemma check_mcp_services_appends_only w : appends_only (check_mcp_services w).
Proof. unfold check_mcp_services, report_service. solve_appends_only. Qed.

Lemma check_paths_appends_only w paths : appends_only (check_paths w paths).
Proof. unfold check_paths. solve_appends_only. Qed.
#[local] Hint Resolve check_paths_appends_only : appends_only.

Lemma check_agent_tools_appends_only w : appends_only (check_agent_tools w).
Proof. unfold check_agent_tools. solve_appends_only. Qed.

Lemma check_main_files_appends_only w : appends_only (check_main_files w).
Proof. unfold check_main_files. solve_appends_only. Qed.

Lemma print_summary_appends_only : appends_only print_summary.
Proof. unfold print_summary, print_section. solve_appends_only. Qed.

(** The runner appends only, as long as the checks it is given do. *)
Lemma run_checks_appends_only (checks : list (string * M pyval)) :
  Forall (λ c, appends_only c.2) checks → appends_only (run_checks checks).
Proof.
  intros Hall. unfold run_checks. apply preserves_for_fold; [apply _ |].
  intros results [name check_func] Hin.
  rewrite Forall_forall in Hall. specialize (Hall _ Hin). simpl in Hall.
  unfold run_check. solve_appends_only.
Qed.

Lemma checks_append_only w : Forall (λ c, appends_only c.2) (checks w).
Proof.
  unfold checks. repeat apply Forall_cons_2; [.. | apply Forall_nil_2]; simpl.
  - apply check_python_version_appends_only.
  - apply check_dependencies_appends_only.
  - apply check_config_file_appends_only.
  - apply check_env_file_appends_only.
  - apply check_data_files_appends_only.
  - apply check_agent_tools_appends_only.
  - apply check_main_files_appends_only.
  - apply check_mcp_services_appends_only.
Qed.

Lemma run_all_checks_appends_only w : appends_only (run_all_checks w).
Proof.
  unfold run_all_checks.
  repeat first [ solve [auto with appends_only nocore]
               | apply run_checks_appends_only, checks_append_only
               | preserves_step ].
Qed.

(** C9. Each of the eight check methods, the port helper, the runner, the
    summary and a whole run of [main] only append to [issues], [warnings]
    and [success]: from any starting state, and whether the method returns
    or raises, each of the three lists it leaves begins with the list it
    found, entry for entry. *)
Theorem methods_only_append w :
  (∀ st, extends st (check_python_version w st).2)
  ∧ (∀ st, extends st (check_dependencies w st).2)
  ∧ (∀ st, extends st (check_config_file w st).2)
  ∧ (∀ st, extends st (check_env_file w st).2)
  ∧ (∀ st, extends st (check_data_files w st).2)
  ∧ (∀ st, extends st (check_agent_tools w st).2)
  ∧ (∀ st, extends st (check_main_files w st).2)
  ∧ (∀ st, extends st (check_mcp_services w st).2)
  ∧ (∀ port st, extends st (check_port w port st).2)
  ∧ (∀ st, extends st (run_all_checks w st).2)
  ∧ (∀ st, extends st (print_summary st).2)
  ∧ (∀ out, extends (init out) (main w out).2).
Proof.
  split; [exact (check_python_version_appends_only w) |].
  split; [exact (check_dependencies_appends_only w) |].
  split; [exact (check_config_file_appends_only w) |].
  split; [exact (check_env_file_appends_only w) |].
  split; [exact (check_data_files_appends_only w) |].
  split; [exact (check_agent_tools_appends_only w) |].
  split; [exact (check_main_files_appends_only w) |].
  split; [exact (check_mcp_services_appends_only w) |].
  split; [exact (check_port_appends_only w) |].
  split; [exact (run_all_checks_appends_only w) |].
  split; [exact print_summary_appends_only |].
  intros out. unfold main.
  pose proof (preserves_bind extends (run_all_checks w) (λ _, print_summary)
                (run_all_checks_appends_only w)
                (λ _, print_summary_appends_only) (init out)) as H.
  destruct ((run_all_checks w;;; print_summary) (init out)) as [[b|e] st];
    exact H.
Qed.

(** ** C4: the environment check *)

(** The environment check never raises, hands back [None], and leaves
    [issues] as it found them. *)
Lemma check_env_file_spec w st :
  ∃ st', check_env_file w st = (Return PyNone, st')
         ∧ issues st' = issues st
         ∧ stdout st' = stdout st ++ [env_header].
Proof.
  unfold check_env_file, for_each, critical_vars, optional_vars.
  cbn [for_fold]. rewrite bind_print.
  destruct (path_exists w ".env"),
    (env_missing w "OPENAI_API_KEY"), (env_missing w "OPENAI_API_BASE"),
    (env_missing w "ALPHAADVANTAGE_API_KEY"), (env_missing w "JINA_API_KEY");
    (eexists; split; [reflexivity | split; reflexivity]).
Qed.

(** C4. In every environment the check appends no issue and does not
    raise, but what it returns is [None]: the method has no [return]
    statement, so the runner records neither [True] nor [False] for it. *)
Theorem check_env_file_returns_None :
  (∀ w st, ∃ st', check_env_file w st = (Return PyNone, st')
                  ∧ issues st' = issues st)
  ∧ (check_env_file bare_world (init [])).1 = Return PyNone
  ∧ (check_env_file bare_world (init [])).1 ≠ Return (PyBool true).
Proof.
  split; [| split].
  - intros w st. destruct (check_env_file_spec w st) as (st' & H1 & H2 & _).
    eauto.
  - reflexivity.
  - discriminate.
Qed.

(** ** C10 and C6: ports and services *)

Lemma check_port_spec w port st :
  check_port w port st = (Return (reachable w port), st).
Proof.
  unfold check_port, reachable, try_except, bind, lift_unit, lift.
  destruct (socket_new w port) as [e1|]; [reflexivity |].
  cbn. destruct (sock_connect_ex w port) as [e2|result]; [reflexivity |].
  cbn. destruct (socket_close w port) as [e3|]; reflexivity.
Qed.

(** C10. For every port and every state, [check_port] returns a boolean
    and leaves the state alone: it never raises.  The boolean is [True]
    exactly when the socket was created, [connect_ex] answered 0 and the
    socket was closed, all without an exception; an exception at any of the
    three steps, or any other result code, gives [False]. *)
Theorem check_port_total w port st :
  ∃ up, check_port w port st = (Return up, st)
        ∧ (up = true ↔ socket_new w port = None
                        ∧ sock_connect_ex w port = inr 0%Z
                        ∧ socket_close w port = None)
        ∧ (∀ e, socket_new w port = Some e
                ∨ sock_connect_ex w port = inl e
                ∨ socket_close w port = Some e → up = false)
        ∧ (∀ result, sock_connect_ex w port = inr result →
                     result ≠ 0%Z → up = false).
Proof.
  exists (reachable w port). split; [apply check_port_spec |].
  unfold reachable.
  destruct (socket_new w port) as [e1|],
    (sock_connect_ex w port) as [e2|result],
    (socket_close w port) as [e3|];
    try (split; [split; [discriminate | by intros (?&?&?)] |];
         split; [reflexivity | reflexivity]).
  split; [| split].
  - rewrite Z.eqb_eq. split; [by intros -> | by intros (_ & [= ->] & _)].
  - by intros e [?|[?|?]].
  - intros r [= <-] Hne. by apply Z.eqb_neq.
Qed.










(** ** C8: the data check *)


(** ** C5 and C7: the configuration check *)

Lemma py_in_object field kvs :
  py_in field (JObject kvs) = inr (bool_decide (has_field kvs field)).
Proof. reflexivity. Qed.

(** The loop stops at the first field that is not a key: whatever comes
    after it in the list is never looked at. *)
Lemma check_required_fields_stops kvs pre field post st :
  Forall (has_field kvs) pre →
  ¬ has_field kvs field →
  check_required_fields (JObject kvs) (pre ++ field :: post) st
  = (Return (Some (PyBool false)), with_issue (missing_field_issue field) st).
Proof.
  intros Hpre Hmiss. induction Hpre as [|f pre Hf _ IH]; cbn [app check_required_fields].
  - rewrite py_in_object. cbn [lift]. erewrite bind_Return by reflexivity.
    by rewrite bool_decide_eq_false_2.
  - rewrite py_in_object. cbn [lift]. erewrite bind_Return by reflexivity.
    by rewrite bool_decide_eq_true_2.
Qed.

Lemma check_required_fields_pass kvs fields st :
  Forall (has_field kvs) fields →
  check_required_fields (JObject kvs) fields st = (Return None, st).
Proof.
  induction 1 as [|f fields Hf _ IH]; cbn [check_required_fields].
  - reflexivity.
  - rewrite py_in_object. cbn [lift]. erewrite bind_Return by reflexivity.
    by rewrite bool_decide_eq_true_2.
Qed.

(** A list with an element that fails [P] splits at the first such one. *)
Lemma first_failure {A} (P : A → Prop) `{!∀ x, Decision (P x)} (l : list A) :
  ¬ Forall P l →
  ∃ pre x post, l = pre ++ x :: post ∧ Forall P pre ∧ ¬ P x.
Proof.
  induction l as [|a l IH]; intros Hnot.
  - destruct Hnot. constructor.
  - destruct (decide (P a)) as [Ha|Ha].
    + destruct IH as (pre & x & post & -> & Hpre & Hx).
      { intros Hl. apply Hnot. by constructor. }
      exists (a :: pre), x, post. repeat split; [by constructor | done].
    + exists [], a, l. repeat split; [constructor | done].
Qed.

(** C5, as amended.  The configuration file exists and parses to an
    object that lacks one of the four required keys.  Then the check files
    exactly one issue, the one naming the first missing key in the order
    [agent_type], [date_range], [models], [agent_config], and returns
    [False]; nothing is added to [warnings] or [success]; and the loop over
    the fields gives the same answer whatever fields follow the missing
    one. *)
Theorem check_config_file_first_missing_field w st kvs :
  path_exists w config_path = true →
  load_config w = inr (JObject kvs) →
  ¬ Forall (has_field kvs) required_fields →
  ∃ pre field post,
    required_fields = pre ++ field :: post
    ∧ Forall (has_field kvs) pre
    ∧ ¬ has_field kvs field
    ∧ check_config_file w st
      = (Return (PyBool false),
         with_issue (missing_field_issue field) (with_line config_header st))
    ∧ (∀ others st0,
         check_required_fields (JObject kvs) (pre ++ field :: others) st0
         = (Return (Some (PyBool false)),
            with_issue (missing_field_issue field) st0)).
Proof.
  intros Hexists Hload Hlacks.
  destruct (first_failure (has_field kvs) required_fields Hlacks)
    as (pre & field & post & Hsplit & Hpre & Hfield).
  exists pre, field, post. repeat split; try done.
  - unfold check_config_file. rewrite bind_print, Hexists. cbn [negb].
    unfold try_except. rewrite Hload. cbn [lift].
    erewrite bind_Return by reflexivity.
    rewrite Hsplit.
    erewrite bind_Return by (by apply check_required_fields_stops).
    reflexivity.
  - intros others st0. by apply check_required_fields_stops.
Qed.

Lemma check_config_file_first_missing_field_witness :
  ∃ pre field post,
    required_fields = pre ++ field :: post
    ∧ Forall (has_field [("agent_type", JString "BaseAgent");
                         ("date_range", JObject [])]) pre
    ∧ ¬ has_field [("agent_type", JString "BaseAgent");
                   ("date_range", JObject [])] field
    ∧ check_config_file
        (installed_world (JObject [("agent_type", JString "BaseAgent");
                                   ("date_range", JObject [])])) (init [])
      = (Return (PyBool false),
         with_issue (missing_field_issue field)
                    (with_line config_header (init [])))
    ∧ (∀ others st0,
         check_required_fields
           (JObject [("agent_type", JString "BaseAgent");
                     ("date_range", JObject [])])
           (pre ++ field :: others) st0
         = (Return (Some (PyBool false)),
            with_issue (missing_field_issue field) st0)).
Proof.
  apply (check_config_file_first_missing_field
           (installed_world (JObject [("agent_type", JString "BaseAgent");
                                      ("date_range", JObject [])]))
           (init [])
           [("agent_type", JString "BaseAgent"); ("date_range", JObject [])]).
  - reflexivity.
  - reflexivity.
  - apply (bool_decide_unpack _). vm_compute. exact I.
Defined.

(** A document that is no container at all, [null], a boolean or a number,
    has no keys to look for: the first [in] raises a [TypeError], and the
    handler files the one issue, a reading error. *)
Lemma check_config_file_scalar w st doc :
  path_exists w config_path = true →
  load_config w = inr doc →
  py_iter doc = inl (Exn TypeError ("'" +:+ py_type_name doc
                                    +:+ "' object is not iterable")) →
  check_config_file w st
  = (Return (PyBool false),
     with_issue ("❌ Помилка читання конфігурації: argument of type '"
                 +:+ py_type_name doc +:+ "' is not iterable")
                (with_line config_header st)).
Proof.
  intros Hexists Hload Hscalar.
  unfold check_config_file. rewrite bind_print, Hexists. cbn [negb].
  unfold try_except. rewrite Hload.
  destruct doc; try discriminate Hscalar; reflexivity.
Qed.

(** The claim as first stated fails on a document that parses but is not
    an object.  The file holding [null] lacks every field, yet the one issue
    the check files reports a reading error and names none of them. *)
Lemma missing_field_counterexample :
  check_config_file (installed_world JNull) (init [])
  = (Return (PyBool false),
     with_issue
       "❌ Помилка читання конфігурації: argument of type 'NoneType' is not iterable"
       (with_line config_header (init [])))
  ∧ ∀ field,
      issues (check_config_file (installed_world JNull) (init [])).2
      ≠ [missing_field_issue field].
Proof.
  split; [reflexivity |].
  intros field. cbn. intros H. discriminate H.
Qed.

(** A configuration without [models]: the one issue names [models]. *)
Example config_without_models :
  check_config_file
    (installed_world (JObject [("agent_type", JString "BaseAgent");
                               ("date_range", JObject [])])) (init [])
  = (Return (PyBool false),
     with_issue (missing_field_issue "models")
                (with_line config_header (init []))).
Proof. reflexivity. Qed.

Lemma enabled_only_disabled entries :
  Forall disabled_model entries → enabled_only entries = inr [].
Proof.
  induction 1 as [|m entries (fields & -> & Hoff) _ IH]; cbn [enabled_only].
  - reflexivity.
  - cbn [py_get]. fold (counts_as_enabled fields). by rewrite IH, Hoff.
Qed.

(** C7, as amended.  The configuration file exists and parses to an object
    with the four required keys whose [models] is a list of objects, none of
    them with an [enabled] value that Python takes for true.  Then the check
    files exactly one warning, that there are no enabled models, files the
    success entry for a valid file, files no issue, and returns [True]. *)
Theorem check_config_file_no_enabled_models w st kvs entries :
  path_exists w config_path = true →
  load_config w = inr (JObject kvs) →
  Forall (has_field kvs) required_fields →
  dict_lookup "models" kvs = Some (JArray entries) →
  Forall disabled_model entries →
  check_config_file w st
  = (Return (PyBool true),
     with_success config_valid_success
       (with_warning no_enabled_models_warning
         (with_line config_header st))).
Proof.
  intros Hexists Hload Hfields Hmodels Hoff.
  unfold check_config_file. rewrite bind_print, Hexists. cbn [negb].
  unfold try_except. rewrite Hload. cbn [lift].
  erewrite bind_Return by reflexivity.
  erewrite bind_Return by (by apply check_required_fields_pass).
  cbn [py_get]. rewrite Hmodels. cbn [default lift py_iter].
  erewrite bind_Return by reflexivity.
  erewrite bind_Return by reflexivity.
  rewrite (enabled_only_disabled entries Hoff).
  reflexivity.
Qed.

Lemma check_config_file_no_enabled_models_witness :
  check_config_file
    (installed_world
       (sample_config
          (JArray [JObject [("name", JString "gpt-4"); ("enabled", JBool false)];
                   JObject [("name", JString "claude")]])))
    (init [])
  = (Return (PyBool true),
     with_success config_valid_success
       (with_warning no_enabled_models_warning
         (with_line config_header (init [])))).
Proof.
  apply (check_config_file_no_enabled_models _ _
           (sample_fields
              (JArray [JObject [("name", JString "gpt-4");
                                ("enabled", JBool false)];
                       JObject [("name", JString "claude")]]))
           [JObject [("name", JString "gpt-4"); ("enabled", JBool false)];
            JObject [("name", JString "claude")]]).
  - reflexivity.
  - reflexivity.
  - apply (bool_decide_unpack _). vm_compute. exact I.
  - reflexivity.
  - repeat constructor; eexists; (split; [reflexivity | reflexivity]).
Defined.

(** The claim as first stated fails on a [models] list whose entry is not
    an object.  The document has the four keys and no entry with the
    enabled flag set true, yet asking the string for [get] raises, the
    handler files an issue, and the check returns [False] with no
    warning. *)
Lemma no_enabled_models_counterexample :
  Forall (has_field (sample_fields (JArray [JString "gpt-4"]))) required_fields
  ∧ List.filter enabled_true [JString "gpt-4"] = []
  ∧ check_config_file
      (installed_world (sample_config (JArray [JString "gpt-4"]))) (init [])
    = (Return (PyBool false),
       with_issue
         "❌ Помилка читання конфігурації: 'str' object has no attribute 'get'"
         (with_line config_header (init [])))
  ∧ ¬ ∃ st',
        check_config_file
          (installed_world (sample_config (JArray [JString "gpt-4"])))
          (init [])
        = (Return (PyBool true), st').
Proof.
  split; [apply (bool_decide_unpack _); vm_compute; exact I |].
  split; [reflexivity |].
  split; [reflexivity |].
  intros [st' H]. discriminate H.
Qed.

(** An [enabled] value that is not [true] but that Python takes for true
    counts as enabled: no warning is filed. *)
Example enabled_by_truthiness :
  List.filter enabled_true [JObject [("enabled", JString "no")]] = []
  ∧ check_config_file
      (installed_world
         (sample_config (JArray [JObject [("enabled", JString "no")]])))
      (init [])
    = (Return (PyBool true),
       with_success config_valid_success
         (with_success "✅ Знайдено 1 активних моделей"
           (with_line config_header (init [])))).
Proof. split; reflexivity. Qed.

(** ** Two whole runs *)

(** On the bare machine the run ends with issues and exits with 1. *)
Example main_bare_world :
  (main bare_world []).1 = 1%Z
  ∧ length (issues (main bare_world []).2) = 15
  ∧ length (warnings (main bare_world []).2) = 9.
Proof. by vm_compute. Qed.

(** On a complete installation with one enabled model and no variable set
    the run ends ready with warnings and exits with 0. *)
Example main_installed_world :
  let w := installed_world
             (sample_config (JArray [JObject [("enabled", JBool true)]])) in
  (main w []).1 = 0%Z
  ∧ issues (main w []).2 = []
  ∧ length (warnings (main w []).2) = 4.
Proof. by vm_compute. Qed.

(** * More of the code *)

(** ** Loops *)

Lemma for_fold_app {A S} (body : S → A → M S) s l1 l2 st :
  for_fold body s (l1 ++ l2) st
  = (s' <- for_fold body s l1 ;; for_fold body s' l2) st.
Proof.
  revert s st. induction l1 as [|a l1 IH]; intros s st; simpl.
  - reflexivity.
  - unfold bind in *. destruct (body s a st) as [[s'|e] st1].
    + apply IH.
    + reflexivity.
Qed.

(** ** check_dependencies *)

Lemma check_dependencies_unfold w :
  check_dependencies w
  = (print dependencies_header ;;;
     missing <- for_fold (dependency_round w) [] required_packages ;;
     ret (PyBool (length missing =? 0))).
Proof. reflexivity. Qed.

Lemma dependency_round_ok w missing item st :
  import_module w item.1 = None →
  dependency_round w missing item st
  = (Return missing, with_success (installed_entry item) st).
Proof.
  destruct item as [import_name package_name]. simpl. intros H.
  unfold dependency_round, try_except, py_import, bind. by rewrite H.
Qed.

Lemma dependency_round_missing w missing item e st :
  import_module w item.1 = Some e → is_ImportError e = true →
  dependency_round w missing item st
  = (Return (missing ++ [item.2]), with_issue (not_installed_entry item) st).
Proof.
  destruct item as [import_name package_name]. simpl. intros H He.
  unfold dependency_round, try_except, py_import, bind. rewrite H. simpl.
  by rewrite He.
Qed.

Lemma dependency_round_fault w missing item e st :
  import_module w item.1 = Some e → is_ImportError e = false →
  dependency_round w missing item st = (Raise e, st).
Proof.
  destruct item as [import_name package_name]. simpl. intros H He.
  unfold dependency_round, try_except, py_import, bind. rewrite H. simpl.
  by rewrite He.
Qed.

(** The loop over packages none of which raises anything but an
    [ImportError]. *)
Lemma dependency_loop w items missing st :
  Forall (fails_with_ImportError w) items →
  for_fold (dependency_round w) missing items st
  = (Return (missing ++ (List.filter (import_fails w) items).*2),
     Checker
       (issues st
        ++ map not_installed_entry (List.filter (import_fails w) items))
       (warnings st)
       (success st
        ++ map installed_entry
             (List.filter (λ item, negb (import_fails w item)) items))
       (stdout st)).
Proof.
  intros Hall. revert missing st.
  induction Hall as [|item items Hitem _ IH]; intros missing st.
  - simpl. unfold ret. destruct st; simpl. by rewrite !app_nil_r.
  - cbn [for_fold List.filter].
    destruct (import_module w item.1) as [e|] eqn:Himport.
    + assert (Hf : import_fails w item = true)
        by (unfold import_fails; by rewrite Himport).
      erewrite bind_Return
        by (apply (dependency_round_missing w missing item e);
            [exact Himport | by apply Hitem]).
      rewrite IH, Hf. cbn [negb]. csimpl. by rewrite <- !app_assoc.
    + assert (Hf : import_fails w item = false)
        by (unfold import_fails; by rewrite Himport).
      erewrite bind_Return by (by apply dependency_round_ok).
      rewrite IH, Hf. cbn [negb]. csimpl. by rewrite <- !app_assoc.
Qed.

Lemma no_failure_iff {A} (fails : A → bool) (f : A → string) items :
  (length (f <$> List.filter fails items) =? 0)
  = forallb (λ item, negb (fails item)) items.
Proof.
  induction items as [|item items IH]; simpl; [reflexivity |].
  destruct (fails item); simpl; [reflexivity | exact IH].
Qed.

(** X1. When no import raises anything but an [ImportError], the
    dependency check files, package by package and in the order of the
    list, a success for each package that imports and an issue for each that
    does not, never a warning, and returns [True] exactly when every package
    imported. *)
Theorem check_dependencies_outcome w st :
  Forall (fails_with_ImportError w) required_packages →
  check_dependencies w st
  = (Return (PyBool (forallb (λ item, negb (import_fails w item))
                             required_packages)),
     Checker
       (issues st
        ++ map not_installed_entry
             (List.filter (import_fails w) required_packages))
       (warnings st)
       (success st
        ++ map installed_entry
             (List.filter (λ item, negb (import_fails w item))
                          required_packages))
       (stdout st ++ [dependencies_header])).
Proof.
  intros Hall. rewrite check_dependencies_unfold, bind_print.
  erewrite bind_Return by (by apply dependency_loop).
  unfold ret. cbn [app]. by rewrite no_failure_iff.
Qed.

Lemma check_dependencies_outcome_witness :
  check_dependencies half_installed_world (init [])
  = (Return (PyBool false),
     Checker ["❌ fastmcp - не встановлено"] []
             ["✅ langchain - встановлено";
              "✅ langchain-openai - встановлено";
              "✅ langchain-mcp-adapters - встановлено";
              "✅ python-dotenv - встановлено"]
             [dependencies_header]).
Proof.
  apply (check_dependencies_outcome half_installed_world (init [])).
  unfold required_packages.
  repeat (apply Forall_cons_2 || apply Forall_nil_2);
    intros e; vm_compute; intros [= <-]; reflexivity.
Defined.

(** X2. An import that raises something other than an [ImportError] ends
    the dependency check there and then: the exception leaves the method,
    the entries filed for the packages before it stay, and the packages
    after it are not looked at. *)
Theorem check_dependencies_foreign_fault w st pre item post e :
  required_packages = pre ++ item :: post →
  Forall (fails_with_ImportError w) pre →
  import_module w item.1 = Some e →
  is_ImportError e = false →
  check_dependencies w st
  = (Raise e,
     Checker
       (issues st ++ map not_installed_entry (List.filter (import_fails w) pre))
       (warnings st)
       (success st
        ++ map installed_entry
             (List.filter (λ item, negb (import_fails w item)) pre))
       (stdout st ++ [dependencies_header])).
Proof.
  intros Hsplit Hpre Himport Hforeign.
  rewrite check_dependencies_unfold, bind_print, Hsplit.
  erewrite bind_Raise; [reflexivity |].
  rewrite for_fold_app.
  erewrite bind_Return by (by apply dependency_loop).
  cbn [for_fold].
  erewrite bind_Raise by (by eapply dependency_round_fault).
  reflexivity.
Qed.

Lemma check_dependencies_foreign_fault_witness :
  check_dependencies broken_import_world (init [])
  = (Raise (Exn RuntimeError "fastmcp needs a newer pydantic"),
     Checker ["❌ langchain-openai - не встановлено"] []
             ["✅ langchain - встановлено";
              "✅ langchain-mcp-adapters - встановлено"]
             [dependencies_header]).
Proof.
  apply (check_dependencies_foreign_fault broken_import_world (init [])
           [("langchain", "langchain");
            ("langchain_openai", "langchain-openai");
            ("langchain_mcp_adapters", "langchain-mcp-adapters")]
           ("fastmcp", "fastmcp")
           [("dotenv", "python-dotenv")]
           (Exn RuntimeError "fastmcp needs a newer pydantic")).
  - reflexivity.
  - repeat (apply Forall_cons_2 || apply Forall_nil_2);
      intros e; vm_compute; intros [= <-]; reflexivity.
  - reflexivity.
  - reflexivity.
Defined.

(** ** check_agent_tools and check_main_files *)




(** ** check_config_file *)

Lemma check_config_file_unfold w :
  check_config_file w
  = (print config_header ;;;
     if negb (path_exists w config_path) then
       issues_append ("❌ Файл конфігурації не знайдено: " +:+ config_path) ;;;
       ret (PyBool false)
     else
       try_except (config <- lift (load_config w) ;; examine_config config)
                  config_handler).
Proof. reflexivity. Qed.

Lemma config_handler_spec e st :
  config_handler e st
  = (Return (PyBool false),
     with_issue ((if is_JSONDecodeError e
                  then "❌ Помилка формату JSON у конфігурації: "
                  else "❌ Помилка читання конфігурації: ") +:+ exn_str e) st).
Proof. unfold config_handler. by destruct (is_JSONDecodeError e). Qed.

Lemma shape_error_not_JSONDecodeError e :
  shape_error e → is_JSONDecodeError e = false.
Proof. unfold is_JSONDecodeError. by intros [-> | ->]. Qed.

Lemma py_in_error field doc e : py_in field doc = inl e → shape_error e.
Proof. destruct doc; intros [= <-]; by left. Qed.

Lemma py_get_error doc key dflt e : py_get doc key dflt = inl e → shape_error e.
Proof. destruct doc; intros [= <-]; by right. Qed.

Lemma py_iter_error doc e : py_iter doc = inl e → shape_error e.
Proof. destruct doc; intros [= <-]; by left. Qed.

Lemma enabled_only_error entries e :
  enabled_only entries = inl e → shape_error e.
Proof.
  induction entries as [|m entries IH]; cbn [enabled_only]; [discriminate |].
  destruct (py_get m "enabled" (JBool false)) as [e'|flag] eqn:Hget.
  - intros [= <-]. by eapply py_get_error.
  - destruct (enabled_only entries) as [e'|kept]; [| discriminate].
    intros [= <-]. by apply IH.
Qed.

(** The loop over any fields of any document: it passes, or files one
    issue and returns [False], or raises with the state untouched. *)
Lemma check_required_fields_cases config fields st :
  let present field :=
    match py_in field config with inr true => true | _ => false end in
  if forallb present fields then
    check_required_fields config fields st = (Return None, st)
  else
    (∃ field, field ∈ fields
       ∧ check_required_fields config fields st
         = (Return (Some (PyBool false)),
            with_issue (missing_field_issue field) st))
    ∨ (∃ e, shape_error e
            ∧ check_required_fields config fields st = (Raise e, st)).
Proof.
  intros present. induction fields as [|field rest IH]; [reflexivity |].
  cbn [forallb check_required_fields]. unfold present at 1.
  destruct (py_in field config) as [e|[]] eqn:Hin; cbn [andb lift].
  - right. exists e. split; [by eapply py_in_error | reflexivity].
  - erewrite bind_Return by reflexivity. cbn [negb].
    destruct (forallb present rest); [exact IH |].
    destruct IH as [(f & Hf & ->) | (e & He & ->)]; [left | right; eauto].
    exists f. split; [by right | reflexivity].
  - left. exists field. split; [by left | reflexivity].
Qed.

Lemma examine_config_cases config st :
  match enabled_models_of config with
  | Some kept =>
      if config_accepts config then
        examine_config config st
        = (Return (PyBool true),
           with_success config_valid_success
             (with_model_count (length kept) st))
      else examine_fails config st
  | None => config_accepts config = false ∧ examine_fails config st
  end.
Proof.
  pose proof (check_required_fields_cases config required_fields st) as Hfields.
  cbn zeta in Hfields. unfold config_accepts, examine_fails.
  destruct (forallb _ required_fields) eqn:Hall; cbn [andb].
  - unfold examine_config. erewrite bind_Return by exact Hfields.
    unfold enabled_models_of.
    destruct (py_get config "models" (JArray [])) as [e|models] eqn:Hget.
    { split; [reflexivity | right]. exists e.
      split; [by eapply py_get_error | reflexivity]. }
    cbn [lift]. erewrite bind_Return by reflexivity.
    destruct (py_iter models) as [e|entries] eqn:Hiter.
    { split; [reflexivity | right]. exists e.
      split; [by eapply py_iter_error | reflexivity]. }
    cbn [lift]. erewrite bind_Return by reflexivity.
    destruct (enabled_only entries) as [e|kept] eqn:Hkept.
    { split; [reflexivity | right]. exists e.
      split; [by eapply enabled_only_error | reflexivity]. }
    cbn. unfold with_model_count. by destruct (length kept =? 0).
  - assert (Hbad : examine_fails config st).
    { unfold examine_fails, examine_config.
      destruct Hfields as [(f & Hin & Hf) | (e & Hshape & He)].
      - left. exists f. split; [exact Hin |].
        erewrite bind_Return by exact Hf. reflexivity.
      - right. exists e. split; [exact Hshape |].
        by erewrite bind_Raise by exact He. }
    destruct (enabled_models_of config);
      [exact Hbad | split; [reflexivity | exact Hbad]].
Qed.

(** What a document that is not let through costs: one issue, naming a
    missing field or reporting the shape error as a reading error. *)
Lemma rejected_config w doc st :
  path_exists w config_path = true → load_config w = inr doc →
  examine_fails doc (with_line config_header st) →
  (∃ field, field ∈ required_fields
     ∧ check_config_file w st
       = (Return (PyBool false),
          with_issue (missing_field_issue field) (with_line config_header st)))
  ∨ (∃ e, shape_error e
       ∧ check_config_file w st
         = (Return (PyBool false),
            with_issue ("❌ Помилка читання конфігурації: " +:+ exn_str e)
                       (with_line config_header st))).
Proof.
  intros Hyes Hload Hfails.
  rewrite check_config_file_unfold, bind_print, Hyes. cbn [negb].
  unfold try_except. rewrite Hload. cbn [lift].
  erewrite bind_Return by reflexivity.
  destruct Hfails as [(f & Hin & ->) | (e & Hshape & ->)].
  - left. eauto.
  - right. exists e. split; [exact Hshape |].
    by rewrite config_handler_spec, shape_error_not_JSONDecodeError.
Qed.



(** X5. How the configuration check words its one issue.  Without the
    file it names the path and does not try to read it.  When opening or
    parsing raises, a [JSONDecodeError] is reported as a format error and
    anything else as a reading error, each with the text of the exception.
    A document that parses but is not let through is reported by the name
    of a required field that is missing, or, when its shape raised a
    [TypeError] or an [AttributeError], as a reading error; never as a
    format error. *)
Theorem check_config_file_error_kinds w st :
  (path_exists w config_path = false →
   check_config_file w st
   = (Return (PyBool false),
      with_issue ("❌ Файл конфігурації не знайдено: " +:+ config_path)
                 (with_line config_header st)))
  ∧ (∀ e, path_exists w config_path = true → load_config w = inl e →
          check_config_file w st
          = (Return (PyBool false),
             with_issue
               ((if is_JSONDecodeError e
                 then "❌ Помилка формату JSON у конфігурації: "
                 else "❌ Помилка читання конфігурації: ") +:+ exn_str e)
               (with_line config_header st)))
  ∧ (∀ doc, path_exists w config_path = true → load_config w = inr doc →
       config_accepts doc = false →
       (∃ field, field ∈ required_fields
          ∧ check_config_file w st
            = (Return (PyBool false),
               with_issue (missing_field_issue field)
                          (with_line config_header st)))
       ∨ (∃ e, (exn_cls e = TypeError ∨ exn_cls e = AttributeError)
            ∧ check_config_file w st
              = (Return (PyBool false),
                 with_issue ("❌ Помилка читання конфігурації: " +:+ exn_str e)
                            (with_line config_header st)))).
Proof.
  split; [| split].
  - intros Hno. rewrite check_config_file_unfold, bind_print, Hno. reflexivity.
  - intros e Hyes Hload.
    rewrite check_config_file_unfold, bind_print, Hyes. cbn [negb].
    unfold try_except, bind. rewrite Hload. cbn [lift raise].
    apply config_handler_spec.
  - intros doc Hyes Hload Hrej.
    apply (rejected_config w doc st Hyes Hload).
    pose proof (examine_config_cases doc (with_line config_header st)) as H.
    rewrite Hrej in H.
    destruct (enabled_models_of doc); [exact H | by destruct H].
Qed.

Lemma enabled_only_objects entries :
  Forall is_object entries →
  enabled_only entries = inr (List.filter enabled_entry entries).
Proof.
  induction 1 as [|m entries [fields ->] _ IH]; cbn [enabled_only List.filter].
  - reflexivity.
  - cbn [py_get enabled_entry]. fold (counts_as_enabled fields).
    by rewrite IH.
Qed.

(** X6. For a configuration object with the four required keys whose
    [models] is a list of objects, the check counts the entries whose
    [enabled] value Python takes for true, an absent one counting as false:
    with none it files the warning, with some it files a success giving
    their number; either way it then files the success for a valid file and
    returns [True]. *)
Theorem check_config_file_counts_enabled w st kvs entries :
  path_exists w config_path = true →
  load_config w = inr (JObject kvs) →
  Forall (has_field kvs) required_fields →
  dict_lookup "models" kvs = Some (JArray entries) →
  Forall is_object entries →
  check_config_file w st
  = (Return (PyBool true),
     with_success config_valid_success
       (with_model_count (length (List.filter enabled_entry entries))
          (with_line config_header st))).
Proof.
  intros Hexists Hload Hfields Hmodels Hobjects.
  rewrite check_config_file_unfold, bind_print, Hexists. cbn [negb].
  unfold try_except. rewrite Hload. cbn [lift].
  erewrite bind_Return by reflexivity.
  unfold examine_config.
  erewrite bind_Return by (by apply check_required_fields_pass).
  cbn [py_get]. rewrite Hmodels. cbn [default lift py_iter].
  erewrite bind_Return by reflexivity.
  erewrite bind_Return by reflexivity.
  rewrite (enabled_only_objects entries Hobjects). cbn [lift].
  erewrite bind_Return by reflexivity.
  unfold with_model_count.
  by destruct (length (List.filter enabled_entry entries) =? 0).
Qed.

Lemma check_config_file_counts_enabled_witness :
  check_config_file (installed_world (sample_config (JArray three_models)))
                    (init [])
  = (Return (PyBool true),
     with_success config_valid_success
       (with_success "✅ Знайдено 2 активних моделей"
          (with_line config_header (init [])))).
Proof.
  apply (check_config_file_counts_enabled
           (installed_world (sample_config (JArray three_models))) (init [])
           (sample_fields (JArray three_models)) three_models).
  - reflexivity.
  - reflexivity.
  - apply (bool_decide_unpack _). vm_compute. exact I.
  - reflexivity.
  - repeat constructor; eexists; reflexivity.
Defined.

(** ** check_env_file *)

Lemma check_env_file_entries w st :
  check_env_file w st
  = (Return PyNone,
     foldl (λ s item, env_var_entry w " (опціонально)" item s)
       (foldl (λ s item, env_var_entry w "" item s)
          (env_file_entry w (with_line env_header st))
          critical_vars)
       optional_vars).
Proof.
  unfold check_env_file, for_each, critical_vars, optional_vars.
  cbn [for_fold foldl]. rewrite bind_print.
  unfold env_file_entry, env_var_entry. cbn [fst snd].
  destruct (path_exists w ".env"),
    (env_missing w "OPENAI_API_KEY"), (env_missing w "OPENAI_API_BASE"),
    (env_missing w "ALPHAADVANTAGE_API_KEY"), (env_missing w "JINA_API_KEY");
    reflexivity.
Qed.

Lemma env_missing_iff w var :
  env_missing w var = true
  ↔ os_getenv w var = None ∨ os_getenv w var = Some "".
Proof.
  unfold env_missing. destruct (os_getenv w var) as [v|]; [| by split; eauto].
  rewrite String.eqb_eq. split; [intros ->; by right | by intros [? | [= ->]]].
Qed.

(** X7. The environment check looks at presence only.  Two surroundings
    that agree on whether [.env] exists and on which of the four variables
    are missing make the check do exactly the same, whatever the values of
    the variables that are set; and a variable is missing exactly when it is
    unset or set to the empty string. *)
Theorem check_env_file_presence_only w1 w2 st :
  path_exists w1 ".env" = path_exists w2 ".env" →
  (∀ item, item ∈ critical_vars ++ optional_vars →
           env_missing w1 item.1 = env_missing w2 item.1) →
  check_env_file w1 st = check_env_file w2 st
  ∧ (∀ var, env_missing w1 var = true
            ↔ os_getenv w1 var = None ∨ os_getenv w1 var = Some "").
Proof.
  intros Hfile Hvars. split; [| apply env_missing_iff].
  rewrite !check_env_file_entries.
  unfold env_file_entry, env_var_entry, critical_vars, optional_vars in *.
  cbn [foldl fst snd]. rewrite Hfile.
  assert (Hin : ∀ item, In item [("OPENAI_API_KEY", "API ключ OpenAI");
                                 ("OPENAI_API_BASE", "Base URL OpenAI");
                                 ("ALPHAADVANTAGE_API_KEY",
                                  "API ключ Alpha Vantage");
                                 ("JINA_API_KEY", "API ключ Jina AI")] →
                        env_missing w1 item.1 = env_missing w2 item.1).
  { intros item Hitem. apply Hvars, list_elem_of_In, Hitem. }
  pose proof (Hin ("OPENAI_API_KEY", "API ключ OpenAI")
                  ltac:(simpl; tauto)) as H1.
  pose proof (Hin ("OPENAI_API_BASE", "Base URL OpenAI")
                  ltac:(simpl; tauto)) as H2.
  pose proof (Hin ("ALPHAADVANTAGE_API_KEY", "API ключ Alpha Vantage")
                  ltac:(simpl; tauto)) as H3.
  pose proof (Hin ("JINA_API_KEY", "API ключ Jina AI")
                  ltac:(simpl; tauto)) as H4.
  cbn [fst] in H1, H2, H3, H4. by rewrite H1, H2, H3, H4.
Qed.

Lemma check_env_file_presence_only_witness :
  check_env_file (env_world first_env) (init [])
  = check_env_file (env_world second_env) (init [])
  ∧ (∀ var, env_missing (env_world first_env) var = true
            ↔ os_getenv (env_world first_env) var = None
              ∨ os_getenv (env_world first_env) var = Some "").
Proof.
  apply (check_env_file_presence_only
           (env_world first_env) (env_world second_env) (init [])).
  - reflexivity.
  - intros item Hin. apply list_elem_of_In in Hin. simpl in Hin.
    destruct Hin as [<-|[<-|[<-|[<-|[]]]]]; reflexivity.
Defined.

(** ** What a check does is independent of what the checker holds *)

Lemma add_delta_nil st : add_delta (Delta [] [] [] []) st = st.
Proof. destruct st. unfold add_delta. simpl. by rewrite !app_nil_r. Qed.

Lemma add_delta_app d1 d2 st :
  add_delta d2 (add_delta d1 st) = add_delta (delta_app d1 d2) st.
Proof. unfold add_delta, delta_app. simpl. by rewrite !app_assoc. Qed.

Lemma blind_ret {A} (a : A) : blind (ret a).
Proof.
  exists (Return a), (Delta [] [] [] []). intros st.
  by rewrite add_delta_nil.
Qed.

Lemma blind_raise {A} e : blind (@raise A e).
Proof.
  exists (Raise e), (Delta [] [] [] []). intros st.
  by rewrite add_delta_nil.
Qed.

Lemma blind_lift {A} (r : exn + A) : blind (lift r).
Proof. destruct r; [apply blind_raise | apply blind_ret]. Qed.

Lemma blind_lift_unit r : blind (lift_unit r).
Proof. destruct r; [apply blind_raise | apply blind_ret]. Qed.

Lemma blind_print line : blind (print line).
Proof.
  exists (Return ()), (Delta [] [] [] [line]). intros st.
  unfold print, with_line, add_delta. simpl. by rewrite !app_nil_r.
Qed.

Lemma blind_issues_append msg : blind (issues_append msg).
Proof.
  exists (Return ()), (Delta [msg] [] [] []). intros st.
  unfold issues_append, with_issue, add_delta. simpl. by rewrite !app_nil_r.
Qed.

Lemma blind_warnings_append msg : blind (warnings_append msg).
Proof.
  exists (Return ()), (Delta [] [msg] [] []). intros st.
  unfold warnings_append, with_warning, add_delta. simpl.
  by rewrite !app_nil_r.
Qed.

Lemma blind_success_append msg : blind (success_append msg).
Proof.
  exists (Return ()), (Delta [] [] [msg] []). intros st.
  unfold success_append, with_success, add_delta. simpl.
  by rewrite !app_nil_r.
Qed.

Lemma blind_bind {A B} (m : M A) (k : A → M B) :
  blind m → (∀ a, blind (k a)) → blind (bind m k).
Proof.
  intros (o & d & Hm) Hk. destruct o as [a|e].
  - destruct (Hk a) as (o' & d' & Hka).
    exists o', (delta_app d d'). intros st.
    unfold bind. by rewrite Hm, Hka, add_delta_app.
  - exists (Raise e), d. intros st. unfold bind. by rewrite Hm.
Qed.

Lemma blind_try_except {A} (body : M A) handler :
  blind body → (∀ e, blind (handler e)) → blind (try_except body handler).
Proof.
  intros (o & d & Hm) Hh. destruct o as [a|e].
  - exists (Return a), d. intros st. unfold try_except. by rewrite Hm.
  - destruct (Hh e) as (o' & d' & Hhe).
    exists o', (delta_app d d'). intros st.
    unfold try_except. by rewrite Hm, Hhe, add_delta_app.
Qed.

Lemma blind_for_fold {A S} (body : S → A → M S) s l :
  (∀ s a, blind (body s a)) → blind (for_fold body s l).
Proof.
  intros Hb. revert s. induction l as [|a l IH]; intros s; simpl.
  - apply blind_ret.
  - apply blind_bind; [apply Hb | exact IH].
Qed.

Lemma blind_for_each {A} (body : A → M unit) l :
  (∀ a, blind (body a)) → blind (for_each body l).
Proof. intros Hb. apply blind_for_fold. intros _ a. apply Hb. Qed.

Create HintDb blind.
#[local] Hint Resolve blind_ret blind_raise blind_lift blind_lift_unit
  blind_print blind_issues_append blind_warnings_append blind_success_append
  : blind.

Ltac blind_step :=
  lazymatch goal with
  | |- blind (bind _ _) => apply blind_bind
  | |- blind (try_except _ _) => apply blind_try_except
  | |- blind (for_fold _ _ _) => apply blind_for_fold
  | |- blind (for_each _ _) => apply blind_for_each
  | |- blind (if ?c then _ else _) => destruct c
  | |- blind (let '(_, _) := ?p in _) => destruct p
  | |- blind (match ?x with _ => _ end) => destruct x
  | |- ∀ _, _ => intros ?
  end.

Ltac solve_blind :=
  repeat first [ solve [auto with blind nocore] | blind_step ].

Lemma blind_check_python_version w : blind (check_python_version w).
Proof. unfold check_python_version. solve_blind. Qed.

Lemma blind_check_dependencies w : blind (check_dependencies w).
Proof. unfold check_dependencies, py_import. solve_blind. Qed.

Lemma blind_check_required_fields config fields :
  blind (check_required_fields config fields).
Proof.
  induction fields as [|field rest IH]; cbn [check_required_fields];
    solve_blind.
Qed.
#[local] Hint Resolve blind_check_required_fields : blind.

Lemma blind_check_config_file w : blind (check_config_file w).
Proof. unfold check_config_file. solve_blind. Qed.

Lemma blind_check_env_file w : blind (check_env_file w).
Proof. unfold check_env_file. solve_blind. Qed.

Lemma blind_check_data_files w : blind (check_data_files w).
Proof. unfold check_data_files. solve_blind. Qed.

Lemma blind_check_port w port : blind (check_port w port).
Proof. unfold check_port. solve_blind. Qed.
#[local] Hint Resolve blind_check_port : blind.

Lemma blind_check_mcp_services w : blind (check_mcp_services w).
Proof. unfold check_mcp_services, report_service. solve_blind. Qed.

Lemma blind_check_paths w paths : blind (check_paths w paths).
Proof. unfold check_paths. solve_blind. Qed.
#[local] Hint Resolve blind_check_paths : blind.

Lemma blind_check_agent_tools w : blind (check_agent_tools w).
Proof. unfold check_agent_tools. solve_blind. Qed.

Lemma blind_check_main_files w : blind (check_main_files w).
Proof. unfold check_main_files. solve_blind. Qed.

Lemma blind_checks w : Forall (λ c, blind c.2) (checks w).
Proof.
  unfold checks. repeat apply Forall_cons_2; [.. | apply Forall_nil_2]; simpl.
  - apply blind_check_python_version.
  - apply blind_check_dependencies.
  - apply blind_check_config_file.
  - apply blind_check_env_file.
  - apply blind_check_data_files.
  - apply blind_check_agent_tools.
  - apply blind_check_main_files.
  - apply blind_check_mcp_services.
Qed.

Lemma blind_run_checks (checks : list (string * M pyval)) :
  Forall (λ c, blind c.2) checks → blind (run_checks checks).
Proof.
  intros Hall. unfold run_checks.
  generalize (∅ : gmap string pyval) as results.
  induction Hall as [|[name check_func] rest Hc _ IH]; intros results.
  - apply blind_ret.
  - cbn [for_fold]. apply blind_bind; [| intros r; apply IH].
    unfold run_check. simpl in Hc. solve_blind.
Qed.

Lemma blind_run_all_checks w : blind (run_all_checks w).
Proof.
  unfold run_all_checks.
  repeat first [ solve [auto with blind nocore]
               | apply blind_run_checks, blind_checks
               | blind_step ].
Qed.

(** X8. None of the eight check methods reads the checker, and neither
    does the runner: what each returns or raises, and the entries and lines
    it adds, are the same from every starting state.  So a run on a checker
    that already holds entries leaves those entries followed by exactly what
    a run on a fresh checker files. *)
Theorem checks_do_not_read_the_checker w :
  Forall (λ c, ∃ o d, ∀ st, c.2 st = (o, add_delta d st)) (checks w)
  ∧ (∃ o d, ∀ st, run_all_checks w st = (o, add_delta d st))
  ∧ (∀ st,
       (run_all_checks w st).1 = (run_all_checks w (init [])).1
       ∧ issues (run_all_checks w st).2
         = issues st ++ issues (run_all_checks w (init [])).2
       ∧ warnings (run_all_checks w st).2
         = warnings st ++ warnings (run_all_checks w (init [])).2
       ∧ success (run_all_checks w st).2
         = success st ++ success (run_all_checks w (init [])).2).
Proof.
  split; [exact (blind_checks w) |].
  split; [exact (blind_run_all_checks w) |].
  intros st. destruct (blind_run_all_checks w) as (o & d & Hrun).
  rewrite (Hrun st), (Hrun (init [])). by repeat split.
Qed.

(** ** What the runner prints *)

#[local] Instance same_console_preorder : PreOrder same_console.
Proof.
  split.
  - intros st. reflexivity.
  - intros a b c Hab Hbc. unfold same_console in *. congruence.
Qed.

Lemma issues_append_silent msg : silent (issues_append msg).
Proof. intros st. reflexivity. Qed.

Lemma warnings_append_silent msg : silent (warnings_append msg).
Proof. intros st. reflexivity. Qed.

Lemma success_append_silent msg : silent (success_append msg).
Proof. intros st. reflexivity. Qed.

Create HintDb silent.
#[local] Hint Resolve issues_append_silent warnings_append_silent
  success_append_silent : silent.

Ltac solve_silent :=
  repeat first [ solve [auto with silent nocore] | preserves_step ].

Lemma check_required_fields_silent config fields :
  silent (check_required_fields config fields).
Proof.
  induction fields as [|field rest IH]; cbn [check_required_fields];
    solve_silent.
Qed.
#[local] Hint Resolve check_required_fields_silent : silent.

Lemma check_port_silent w port : silent (check_port w port).
Proof. unfold check_port. solve_silent. Qed.
#[local] Hint Resolve check_port_silent : silent.

Lemma check_paths_silent w paths : silent (check_paths w paths).
Proof. unfold check_paths. solve_silent. Qed.
#[local] Hint Resolve check_paths_silent : silent.

Lemma prints_only_intro {A} header (m : M A) st :
  silent m →
  stdout ((print header ;;; m) st).2 = stdout st ++ [header].
Proof. intros Hm. rewrite bind_print. apply (Hm (with_line header st)). Qed.

Lemma checks_print_headers w :
  Forall2 (λ c header, prints_only header c.2) (checks w) declared_headers.
Proof.
  unfold checks, declared_headers.
  repeat (apply Forall2_cons_2 || apply Forall2_nil_2); intros st; cbn [snd].
  - unfold check_python_version. apply prints_only_intro. solve_silent.
  - unfold check_dependencies, py_import. apply prints_only_intro.
    solve_silent.
  - unfold check_config_file. apply prints_only_intro. solve_silent.
  - unfold check_env_file. apply prints_only_intro. solve_silent.
  - unfold check_data_files. apply prints_only_intro. solve_silent.
  - unfold check_agent_tools. apply prints_only_intro. solve_silent.
  - unfold check_main_files. apply prints_only_intro. solve_silent.
  - unfold check_mcp_services, report_service. apply prints_only_intro.
    solve_silent.
Qed.

Lemma run_check_console results name (check_func : M pyval) header st :
  prints_only header check_func →
  ∃ r st', run_check results (name, check_func) st = (Return r, st')
           ∧ stdout st' = stdout st ++ [header; ""].
Proof.
  intros Hc. specialize (Hc st).
  destruct (check_func st) as [[v|e] st1] eqn:Hcall; simpl in Hc.
  - eexists _, _. split; [by apply run_check_Return |].
    simpl. rewrite Hc. by rewrite <- app_assoc.
  - eexists _, _. split; [by apply run_check_Raise |].
    simpl. rewrite Hc. by rewrite <- app_assoc.
Qed.

Lemma for_fold_run_check_console checks headers results st :
  Forall2 (λ c header, prints_only header c.2) checks headers →
  stdout (for_fold run_check results checks st).2
  = stdout st ++ flat_map (λ header, [header; ""]) headers.
Proof.
  intros Hall. revert results st.
  induction Hall as [|[name check_func] header checks headers Hc _ IH];
    intros results st.
  - simpl. by rewrite app_nil_r.
  - cbn [for_fold flat_map]. simpl in Hc.
    destruct (run_check_console results name check_func header st Hc)
      as (r & st' & Hrun & Hout).
    erewrite bind_Return by exact Hrun.
    rewrite IH, Hout. by rewrite <- app_assoc.
Qed.

(** X9. Whatever the surroundings, and whether checks return or raise,
    [run_all_checks] adds to the console its banner and then, for each of
    the eight checks in the declared order, the header of the check and an
    empty line, and nothing else. *)
Theorem run_all_checks_console w st :
  stdout (run_all_checks w st).2
  = stdout st
    ++ [str_mul "=" 60; "🔍 ПЕРЕВІРКА СТАТУСУ СИСТЕМИ AI-TRADER";
        str_mul "=" 60; ""]
    ++ flat_map (λ header, [header; ""]) declared_headers.
Proof.
  rewrite run_all_checks_unfold. unfold run_checks.
  rewrite (for_fold_run_check_console (checks w) declared_headers)
    by apply checks_print_headers.
  unfold with_banner. simpl. by rewrite <- !app_assoc.
Qed.

(** ** When the system is ready *)




















(** ** What the summary prints *)

Lemma print_section_spec title items st :
  print_section title items st
  = (Return (), Checker (issues st) (warnings st) (success st)
                        (stdout st ++ section_lines title items)).
Proof.
  destruct items as [|x items].
  - simpl. unfold ret. destruct st; simpl. by rewrite app_nil_r.
  - unfold print_section. rewrite bind_print.
    erewrite bind_Return by apply for_each_print.
    unfold print, with_line, section_lines. cbn [issues warnings success stdout].
    by rewrite <- !app_assoc.
Qed.

(** X12. [print_summary] changes none of the three lists and adds to the
    console, in this order: its banner; the successes, the warnings and the
    issues, each list under its title with one indented line per entry in
    the order of the list and an empty line after, a list without entries
    being left out altogether; and the closing message, which is one of
    three according to whether there are issues and, if not, warnings.  It
    returns [True] exactly when there is no issue. *)
Theorem print_summary_output st :
  print_summary st
  = (Return (bool_decide (issues st = [])),
     Checker (issues st) (warnings st) (success st)
             (stdout st ++ summary_lines st)).
Proof.
  unfold print_summary. rewrite !bind_print.
  erewrite bind_Return by reflexivity.
  erewrite bind_Return by apply print_section_spec.
  erewrite bind_Return by apply print_section_spec.
  erewrite bind_Return by apply print_section_spec.
  unfold summary_lines, closing_lines.
  cbn [issues warnings success stdout with_line].
  destruct (issues st) as [|i rest], (warnings st) as [|x ws];
    cbn [length Nat.eqb andb]; rewrite ?bind_print; unfold ret, with_line;
    cbn [issues warnings success stdout];
    generalize (section_lines "✅ Успішні перевірки:" (success st));
    intros l1; cbn [section_lines];
    repeat (rewrite <- ?app_assoc; cbn [app]); reflexivity.
Qed.

(** ** A fault is not lost *)

Lemma isolated_run_extends checks st log st' :
  Forall (λ c, appends_only c.2) checks →
  isolated_run checks st log st' → issues st `prefix_of` issues st'.
Proof.
  intros Hall Hrun. induction Hrun as
    [st | name check_func rest st v st1 log st2 Hcall _ IH
        | name check_func rest st e st1 log st2 Hcall _ IH].
  - done.
  - apply Forall_cons in Hall as [Hc Hrest]. simpl in Hc.
    pose proof (Hc st) as (Hpre & _ & _). rewrite Hcall in Hpre.
    etrans; [exact Hpre | by apply IH].
  - apply Forall_cons in Hall as [Hc Hrest]. simpl in Hc.
    pose proof (Hc st) as (Hpre & _ & _). rewrite Hcall in Hpre.
    etrans; [exact Hpre |]. etrans; [| by apply IH].
    simpl. by apply prefix_app_r.
Qed.

Lemma isolated_run_keeps_faults checks st log st' name e :
  Forall (λ c, appends_only c.2) checks →
  isolated_run checks st log st' →
  (name, Raise e) ∈ log → fault_issue name e ∈ issues st'.
Proof.
  intros Hall Hrun. induction Hrun as
    [st | n check_func rest st v st1 log st2 Hcall Hrest IH
        | n check_func rest st e' st1 log st2 Hcall Hrest IH]; intros Hin.
  - by apply elem_of_nil in Hin.
  - apply Forall_cons in Hall as [_ Hall].
    apply elem_of_cons in Hin as [[=] | Hin]. by apply IH.
  - apply Forall_cons in Hall as [_ Hall].
    apply elem_of_cons in Hin as [[= -> ->] | Hin]; [| by apply IH].
    destruct (isolated_run_extends _ _ _ _ Hall Hrest) as [k Hk].
    rewrite Hk. simpl. apply elem_of_app. left. apply elem_of_app. right.
    by left.
Qed.

(** X13. When the checks handed to the runner only append, no fault is
    lost.  The run is the isolated run of the list, whose log holds for
    every check what it did on the state it was given; and for every check
    the log shows to have raised, the issue the runner filed for it is still
    in [issues] when the run ends, so that run ends with issues. *)
Theorem raised_check_stays_an_issue (checks : list (string * M pyval)) st :
  Forall (λ c, ∀ st0, extends st0 (c.2 st0).2) checks →
  ∃ log st',
    run_checks checks st = (Return (results_from ∅ log), st')
    ∧ isolated_run checks st log st'
    ∧ ∀ name e, (name, Raise e) ∈ log →
                fault_issue name e ∈ issues st' ∧ issues st' ≠ [].
Proof.
  intros Hall.
  destruct (run_checks_log checks st) as (log & st' & Hrun & Hspec & _ & _).
  exists log, st'. split; [exact Hrun |]. split; [exact Hspec |].
  intros name e Hin.
  pose proof (isolated_run_keeps_faults _ _ _ _ name e Hall Hspec Hin) as Hkept.
  split; [exact Hkept |]. intros Hnil. rewrite Hnil in Hkept.
  by apply elem_of_nil in Hkept.
Qed.

Lemma raised_check_stays_an_issue_witness :
  ∃ log st',
    run_checks flaky_checks (init []) = (Return (results_from ∅ log), st')
    ∧ isolated_run flaky_checks (init []) log st'
    ∧ ∀ name e, (name, Raise e) ∈ log →
                fault_issue name e ∈ issues st' ∧ issues st' ≠ [].
Proof.
  apply (raised_check_stays_an_issue flaky_checks (init [])).
  unfold flaky_checks.
  repeat (apply Forall_cons_2 || apply Forall_nil_2); cbn [snd].
  - exact (preserves_bind extends _ _ (success_append_appends_only "ok")
             (λ _, preserves_ret extends (PyBool true))).
  - exact (preserves_bind extends _ _
             (warnings_append_appends_only "about to fail")
             (λ _, preserves_raise extends (Exn RuntimeError "boom"))).
  - exact (preserves_ret extends PyNone).
Defined.

Example flaky_run :
  issues (run_checks flaky_checks (init [])).2
  = ["❌ Помилка під час перевірки second: boom"].
Proof. reflexivity. Qed.

(** ** What the runner records *)





